(** * A contact directory: records of validated phone numbers

    Shallow embedding of [hw_bot_cli_v3.py]: the classes [Field], [Name],
    [Phone], [Record] and [AddressBook], with the part of Python's [re] and
    [list] that their methods call.

    A Python [str] is a sequence of Unicode code points.  Methods that assign
    to [self] are computations in a state-and-exception monad whose state is
    the object, so that what an object looks like after a [raise] is part of
    the model; methods that only read are functions of [self]. *)

From Stdlib Require Import NArith String Ascii List Lia.
From stdpp Require Import gmap list.
Import ListNotations.

Local Open Scope N_scope.
Local Open Scope nat_scope.

(** ** Strings *)

Abbreviation codepoint := N (only parsing).
Abbreviation str := (list N) (only parsing).

(** An ASCII literal as a Python [str]. *)
Definition pystr (s : string) : str := map N_of_ascii (list_ascii_of_string s).

(** The line feed, [ord("\n")]. *)
Definition LF : codepoint := 10%N.

(** [sep.join(items)]. *)
Fixpoint str_join (sep : str) (items : list str) : str :=
  match items with
  | [] => []
  | x :: rest =>
      match rest with
      | [] => x
      | _ :: _ => x ++ sep ++ str_join sep rest
      end
  end.

(** The code points with the Unicode property Decimal (category Nd, Unicode
    14.0), as inclusive ranges: what [str.isdecimal] and the [\d] of a [str]
    pattern compiled without [re.ASCII] accept. *)
Definition decimal_ranges : list (N * N) :=
  [ (48, 57); (1632, 1641); (1776, 1785); (1984, 1993); (2406, 2415);
    (2534, 2543); (2662, 2671); (2790, 2799); (2918, 2927); (3046, 3055);
    (3174, 3183); (3302, 3311); (3430, 3439); (3558, 3567); (3664, 3673);
    (3792, 3801); (3872, 3881); (4160, 4169); (4240, 4249); (6112, 6121);
    (6160, 6169); (6470, 6479); (6608, 6617); (6784, 6793); (6800, 6809);
    (6992, 7001); (7088, 7097); (7232, 7241); (7248, 7257); (42528, 42537);
    (43216, 43225); (43264, 43273); (43472, 43481); (43504, 43513);
    (43600, 43609); (44016, 44025); (65296, 65305); (66720, 66729);
    (68912, 68921); (69734, 69743); (69872, 69881); (69942, 69951);
    (70096, 70105); (70384, 70393); (70736, 70745); (70864, 70873);
    (71248, 71257); (71360, 71369); (71472, 71481); (71904, 71913);
    (72016, 72025); (72784, 72793); (73040, 73049); (73120, 73129);
    (92768, 92777); (92864, 92873); (93008, 93017); (120782, 120831);
    (123200, 123209); (123632, 123641); (125264, 125273);
    (130032, 130041) ]%N.

Definition in_range (c : codepoint) (r : N * N) : bool :=
  ((fst r <=? c) && (c <=? snd r))%N.

Definition uni_isdecimal (c : codepoint) : bool :=
  existsb (in_range c) decimal_ranges.

(** The ten characters ["0"] to ["9"]. *)
Definition ascii_digit (c : codepoint) : bool := ((48 <=? c) && (c <=? 57))%N.

(** ** Exceptions and the monad of methods *)

Inductive exn : Type :=
| ValueError (msg : str)
| IndexError (msg : str).

Inductive outcome (A : Type) : Type :=
| Returned (a : A)
| Raised (e : exn).
Arguments Returned {A} a.
Arguments Raised {A} e.

(** A method body run on the object [St]: what it returns or raises, and the
    object as it is left. *)
Definition M (St A : Type) : Type := St -> outcome A * St.

Section Monad.
Context {St : Type}.

Definition ret {A} (a : A) : M St A := fun s => (Returned a, s).

Definition raise {A} (e : exn) : M St A := fun s => (Raised e, s).

Definition bind {A B} (m : M St A) (k : A -> M St B) : M St B :=
  fun s =>
    match m s with
    | (Returned a, s') => k a s'
    | (Raised e, s') => (Raised e, s')
    end.

Definition get : M St St := fun s => (Returned s, s).

Definition put (s' : St) : M St unit := fun _ => (Returned tt, s').

(** A call that does not touch [self] (a constructor, a list operation). *)
Definition call {A} (o : outcome A) : M St A := fun s => (o, s).

End Monad.

Declare Scope py_scope.
Delimit Scope py_scope with py.
Notation "x <- m ;; k" := (bind m (fun x => k))
  (at level 100, m at next level, right associativity) : py_scope.
Notation "m ;; k" := (bind m (fun _ => k))
  (at level 100, right associativity) : py_scope.
Local Open Scope py_scope.

(** ** The part of [re] that [Phone] uses *)

Module re.

(** The parsed pattern: [sre_parse] turns [r"^\d{10}$"] into
    [AT AT_BEGINNING; MAX_REPEAT 10 10 (IN (CATEGORY_DIGIT)); AT AT_END]. *)
Inductive node : Type :=
| AT_BEGINNING
| AT_END
| REPEAT_DIGIT (n : nat).

(** [\d{n}]: exactly [n] decimal digits, returning what follows them. *)
Fixpoint take_digits (n : nat) (s : str) : option str :=
  match n with
  | O => Some s
  | S n' =>
      match s with
      | c :: s' => if uni_isdecimal c then take_digits n' s' else None
      | [] => None
      end
  end.

(** [$] without [re.MULTILINE]: at the end of the string, or just before a
    line feed that ends it. *)
Definition at_end (s : str) : bool :=
  match s with
  | [] => true
  | [c] => (c =? LF)%N
  | _ => false
  end.

(** The matcher, at position [pos] with [s] left to read. *)
Fixpoint sre_match (pat : list node) (pos : nat) (s : str) : bool :=
  match pat with
  | [] => true
  | AT_BEGINNING :: pat' => (pos =? 0) && sre_match pat' pos s
  | AT_END :: pat' => at_end s && sre_match pat' pos s
  | REPEAT_DIGIT n :: pat' =>
      match take_digits n s with
      | Some s' => sre_match pat' (pos + n) s'
      | None => false
      end
  end.

(** [bool(re.match(pat, s))]: a match anchored at position 0. *)
Definition match_ (pat : list node) (s : str) : bool := sre_match pat 0 s.

End re.

(** ** Fields *)

Module Field.

Record t : Type := mk { value : str }.

#[global] Instance eq_dec : EqDecision t.
Proof. solve_decision. Defined.

(** [Field.__init__] *)
Definition init (value : str) : t := mk value.

(** [Field.__str__]: [str(self.value)], the value itself for a [str]. *)
Definition to_str (self : t) : str := value self.

End Field.

Module Name.

(** [class Name(Field): pass] *)
Abbreviation t := Field.t (only parsing).
Definition init (value : str) : t := Field.init value.

End Name.

Module Phone.

Abbreviation t := Field.t (only parsing).

(** [r"^\d{10}$"] *)
Definition pattern : list re.node :=
  [re.AT_BEGINNING; re.REPEAT_DIGIT 10; re.AT_END].

(** [Phone.__init__] *)
Definition init (value : str) : outcome t :=
  if negb (re.match_ pattern value)
  then Raised (ValueError (pystr "Phone number must contain exactly 10 digits."))
  else Returned (Field.init value).

End Phone.

(** ** The part of [list] that [Record] uses *)

(** [l.remove(x)]: drops the first item equal to [x]; [None] stands for the
    [ValueError] of a list that has no such item. *)
Fixpoint list_remove {A} `{EqDecision A} (x : A) (l : list A) : option (list A) :=
  match l with
  | [] => None
  | y :: l' =>
      if decide (y = x) then Some l'
      else match list_remove x l' with
           | Some r => Some (y :: r)
           | None => None
           end
  end.

(** [l[i] = x] for [i >= 0]; [None] stands for the [IndexError] of an index
    past the end. *)
Definition list_setitem {A} (i : nat) (x : A) (l : list A) : option (list A) :=
  if decide (i < length l) then Some (<[i := x]> l) else None.

(** ** Records *)

Module Record_.

(** [class Record]: [self.name] and [self.phones]. *)
Record t : Type := mk { name : Name.t; phones : list Phone.t }.

Definition set_phones (self : t) (l : list Phone.t) : t :=
  mk (name self) l.

(** [Record.__init__] *)
Definition init (name : str) : t := mk (Name.init name) [].

(** [self.phones.append(x)] *)
Definition phones_append (x : Phone.t) : M t unit :=
  self <- get ;; put (set_phones self (phones self ++ [x])).

(** [self.phones.remove(x)].  [Phone] defines no [__eq__], so Python compares
    the items to [x] by identity; [x] is here the first item of the list
    with its value, and an earlier item that were the same object would have
    that value too, so the item dropped is the first one equal to [x]. *)
Definition phones_remove (x : Phone.t) : M t unit :=
  self <- get ;;
  match list_remove x (phones self) with
  | Some l => put (set_phones self l)
  | None => raise (ValueError (pystr "list.remove(x): x not in list"))
  end.

(** [self.phones[i] = x] *)
Definition phones_setitem (i : nat) (x : Phone.t) : M t unit :=
  self <- get ;;
  match list_setitem i x (phones self) with
  | Some l => put (set_phones self l)
  | None => raise (IndexError (pystr "list assignment index out of range"))
  end.

(** [Record.add_phone] *)
Definition add_phone (phone : str) : M t str :=
  new_phone <- call (Phone.init phone) ;;
  phones_append new_phone ;;
  self <- get ;;
  ret (pystr "Phone " ++ phone ++ pystr " added to "
         ++ Field.to_str (name self) ++ pystr ".").

(** The [for p in self.phones] loop of [remove_phone], with [rest] the items
    still to visit; the loop is left by [return] right after the list is
    changed. *)
Fixpoint remove_phone_loop (phone : str) (rest : list Phone.t) : M t str :=
  match rest with
  | [] => ret (pystr "Phone number not found.")
  | p :: rest' =>
      if decide (Field.value p = phone) then
        phones_remove p ;;
        self <- get ;;
        ret (pystr "Phone " ++ phone ++ pystr " removed from "
               ++ Field.to_str (name self) ++ pystr ".")
      else remove_phone_loop phone rest'
  end.

(** [Record.remove_phone] *)
Definition remove_phone (phone : str) : M t str :=
  self <- get ;; remove_phone_loop phone (phones self).

(** The [for i, p in enumerate(self.phones)] loop of [edit_phone], with [i]
    the index of the head of [rest]. *)
Fixpoint edit_phone_loop (old_phone new_phone : str) (i : nat)
    (rest : list Phone.t) : M t str :=
  match rest with
  | [] => ret (pystr "Old phone number not found.")
  | p :: rest' =>
      if decide (Field.value p = old_phone) then
        x <- call (Phone.init new_phone) ;;
        phones_setitem i x ;;
        self <- get ;;
        ret (pystr "Phone " ++ old_phone ++ pystr " updated to " ++ new_phone
               ++ pystr " for " ++ Field.to_str (name self) ++ pystr ".")
      else edit_phone_loop old_phone new_phone (S i) rest'
  end.

(** [Record.edit_phone] *)
Definition edit_phone (old_phone new_phone : str) : M t str :=
  self <- get ;; edit_phone_loop old_phone new_phone 0 (phones self).

(** The loop of [find_phone]. *)
Fixpoint find_phone_loop (phone : str) (rest : list Phone.t) : option Phone.t :=
  match rest with
  | [] => None
  | p :: rest' =>
      if decide (Field.value p = phone) then Some p
      else find_phone_loop phone rest'
  end.

(** [Record.find_phone]: the phone found, or [None]. *)
Definition find_phone (phone : str) (self : t) : option Phone.t :=
  find_phone_loop phone (phones self).

(** [Record.__str__] *)
Definition to_str (self : t) : str :=
  let phones_str := str_join (pystr "; ") (map Field.to_str (phones self)) in
  pystr "Contact name: " ++ Field.value (name self) ++ pystr ", phones: "
    ++ phones_str.

(** The three mutating methods as one type of call, and a caller that makes
    a sequence of them on one record, going on after a call that raised. *)
Inductive op : Type :=
| AddPhone (phone : str)
| RemovePhone (phone : str)
| EditPhone (old_phone new_phone : str).

Definition do_op (o : op) : M t str :=
  match o with
  | AddPhone phone => add_phone phone
  | RemovePhone phone => remove_phone phone
  | EditPhone old_phone new_phone => edit_phone old_phone new_phone
  end.

Fixpoint do_ops (os : list op) (self : t) : t :=
  match os with
  | [] => self
  | o :: os' => do_ops os' (snd (do_op o self))
  end.

End Record_.

(** ** The address book *)

Module AddressBook.

(** [class AddressBook(UserDict)]: [self.data], a [dict] from names to
    records. *)
Record t : Type := mk { data : gmap str Record_.t }.

(** [AddressBook()] *)
Definition init : t := mk ∅.

(** [AddressBook.add_record] *)
Definition add_record (record : Record_.t) : M t str :=
  self <- get ;;
  put (mk (<[Field.value (Record_.name record) := record]> (data self))) ;;
  ret (pystr "Contact " ++ Field.value (Record_.name record)
         ++ pystr " added to the address book.").

(** [AddressBook.find]: [self.data.get(name)]. *)
Definition find (name : str) (self : t) : option Record_.t :=
  data self !! name.

(** [AddressBook.delete] *)
Definition delete (name : str) : M t str :=
  self <- get ;;
  if decide (is_Some (data self !! name)) then
    put (mk (base.delete name (data self))) ;;
    ret (pystr "Contact " ++ name ++ pystr " has been deleted.")
  else ret (pystr "Contact not found.").

End AddressBook.

(** ** The address book with the order of its entries

    [AddressBook.__str__] reads [self.data.values()], and a Python [dict]
    yields its items in the order in which their keys were first inserted;
    a [gmap] has no such order.  For that method the [dict] is the list of
    its items in insertion order, and the book over it is shown below to
    agree with [AddressBook] on the three other methods. *)

Module dict.

(** [d.get(k)] *)
Fixpoint get {V} (k : str) (d : list (str * V)) : option V :=
  match d with
  | [] => None
  | (k', v) :: d' => if decide (k' = k) then Some v else get k d'
  end.

(** [d[k] = v]: a key that is present keeps its place and takes the new
    value, a new key goes last. *)
Fixpoint setitem {V} (k : str) (v : V) (d : list (str * V)) : list (str * V) :=
  match d with
  | [] => [(k, v)]
  | (k', v') :: d' =>
      if decide (k' = k) then (k', v) :: d' else (k', v') :: setitem k v d'
  end.

(** [del d[k]] for a key that is present (its one caller tests [k in d]
    first); the items left keep their order. *)
Fixpoint delitem {V} (k : str) (d : list (str * V)) : list (str * V) :=
  match d with
  | [] => []
  | (k', v') :: d' =>
      if decide (k' = k) then d' else (k', v') :: delitem k d'
  end.

(** [list(d.keys())] and [list(d.values())] *)
Definition keys {V} (d : list (str * V)) : list str := map fst d.
Definition values {V} (d : list (str * V)) : list V := map snd d.

End dict.

Module OrderedAddressBook.

Record t : Type := mk { data : list (str * Record_.t) }.

(** [AddressBook()] *)
Definition init : t := mk [].

(** [AddressBook.add_record] *)
Definition add_record (record : Record_.t) : M t str :=
  self <- get ;;
  put (mk (dict.setitem (Field.value (Record_.name record)) record (data self))) ;;
  ret (pystr "Contact " ++ Field.value (Record_.name record)
         ++ pystr " added to the address book.").

(** [AddressBook.find] *)
Definition find (name : str) (self : t) : option Record_.t :=
  dict.get name (data self).

(** [AddressBook.delete] *)
Definition delete (name : str) : M t str :=
  self <- get ;;
  if decide (is_Some (dict.get name (data self))) then
    put (mk (dict.delitem name (data self))) ;;
    ret (pystr "Contact " ++ name ++ pystr " has been deleted.")
  else ret (pystr "Contact not found.").

(** [AddressBook.__str__] *)
Definition to_str (self : t) : str :=
  str_join [LF] (map Record_.to_str (dict.values (data self))).

(** The keys of a [dict] are distinct. *)
Definition wf (self : t) : Prop := NoDup (dict.keys (data self)).

(** The book with the order of its entries forgotten. *)
Definition unordered (self : t) : AddressBook.t :=
  AddressBook.mk (list_to_map (data self)).

End OrderedAddressBook.

(** The two mutating methods of the book as one type of call, and a caller
    that makes a sequence of them on one book. *)
Inductive book_op : Type :=
| AddRecord (record : Record_.t)
| Delete (name : str).

Definition do_book_op (o : book_op) : M AddressBook.t str :=
  match o with
  | AddRecord record => AddressBook.add_record record
  | Delete name => AddressBook.delete name
  end.

Fixpoint do_book_ops (os : list book_op) (self : AddressBook.t) : AddressBook.t :=
  match os with
  | [] => self
  | o :: os' => do_book_ops os' (snd (do_book_op o self))
  end.

(** ** Vocabulary of the properties *)

(** A string of exactly ten decimal digits. *)
Definition ten_digits (s : str) : bool :=
  (length s =? 10) && forallb uni_isdecimal s.

(** A string of exactly ten of the characters ["0"] to ["9"]. *)
Definition ten_ascii_digits (s : str) : bool :=
  (length s =? 10) && forallb ascii_digit s.

(** The first position of [l] that holds a phone of value [v]. *)
Fixpoint index_of (v : str) (l : list Phone.t) : option nat :=
  match l with
  | [] => None
  | p :: l' =>
      if decide (Field.value p = v) then Some 0 else S <$> index_of v l'
  end.

(** What the constructor makes of a value it accepts. *)
Definition constructed (p : Phone.t) : Prop :=
  re.match_ Phone.pattern (Field.value p) = true /\
  Phone.init (Field.value p) = Returned p.

(** * Properties *)

(** ** Digits and the pattern *)

Lemma ascii_digit_isdecimal (c : codepoint) :
  ascii_digit c = true -> uni_isdecimal c = true.
Proof.
  intros H. unfold uni_isdecimal, decimal_ranges. cbn [existsb].
  apply orb_true_iff. left. exact H.
Qed.

Lemma ten_ascii_digits_ten_digits (s : str) :
  ten_ascii_digits s = true -> ten_digits s = true.
Proof.
  unfold ten_ascii_digits, ten_digits.
  rewrite !andb_true_iff, !forallb_forall.
  intros [Hlen Hall]. split; [exact Hlen|].
  intros c Hc. apply ascii_digit_isdecimal, Hall, Hc.
Qed.

Lemma LF_not_decimal : uni_isdecimal LF = false.
Proof. reflexivity. Qed.

Lemma take_digits_Some (n : nat) (s rest : str) :
  re.take_digits n s = Some rest <->
  exists d, s = d ++ rest /\ length d = n /\ forallb uni_isdecimal d = true.
Proof.
  revert s. induction n as [|n IH]; intros s; simpl.
  - split.
    + intros [= ->]. exists []. auto.
    + intros (d & -> & Hlen & _). destruct d; [reflexivity|discriminate].
  - destruct s as [|c s].
    + split; [discriminate|].
      intros (d & Hs & Hlen & _). destruct d; discriminate.
    + destruct (uni_isdecimal c) eqn:Hc.
      * rewrite IH. split.
        -- intros (d & -> & Hlen & Hd). exists (c :: d).
           simpl. rewrite Hc, Hd, Hlen. auto.
        -- intros (d & Hs & Hlen & Hd). destruct d as [|c' d]; [discriminate|].
           simpl in *. injection Hs as <- ->. injection Hlen as Hlen.
           apply andb_true_iff in Hd as [_ Hd]. eauto.
      * split; [discriminate|].
        intros (d & Hs & Hlen & Hd). destruct d as [|c' d]; [discriminate|].
        simpl in *. injection Hs as <- ->.
        rewrite Hc in Hd. discriminate.
Qed.

Lemma at_end_iff (s : str) : re.at_end s = true <-> s = [] \/ s = [LF].
Proof.
  destruct s as [|c [|c' s]]; simpl.
  - split; auto.
  - rewrite N.eqb_eq. split.
    + intros ->. auto.
    + intros [|[= ->]]; [discriminate|reflexivity].
  - split; [discriminate|]. intros [|]; discriminate.
Qed.

(** What the pattern accepts: ten decimal digits, then nothing or one line
    feed. *)
Lemma match_pattern_iff (s : str) :
  re.match_ Phone.pattern s = true <->
  exists d, ten_digits d = true /\ (s = d \/ s = d ++ [LF]).
Proof.
  unfold re.match_, Phone.pattern, ten_digits. cbn [re.sre_match].
  change (0 =? 0) with true. cbn [andb].
  split.
  - destruct (re.take_digits 10 s) as [rest|] eqn:Hd; [|discriminate].
    apply take_digits_Some in Hd as (d & -> & Hlen & Hall).
    rewrite andb_true_r, at_end_iff.
    intros Hend. exists d. rewrite Hlen, Hall. split; [reflexivity|].
    destruct Hend as [-> | ->]; [left; apply app_nil_r | right; reflexivity].
  - intros (d & Hd & Hs). apply andb_true_iff in Hd as [Hlen Hall].
    apply Nat.eqb_eq in Hlen.
    assert (exists rest, s = d ++ rest /\ (rest = [] \/ rest = [LF]))
      as (rest & -> & Hrest).
    { destruct Hs as [-> | ->]; [exists []|exists [LF]];
        rewrite ?app_nil_r; auto. }
    assert (re.take_digits 10 (d ++ rest) = Some rest) as ->.
    { apply take_digits_Some. eauto. }
    rewrite andb_true_r. apply at_end_iff, Hrest.
Qed.

(** [Phone.__init__] either raises its one error or returns a field that
    holds the argument. *)
Lemma Phone_init_cases (v : str) :
  (re.match_ Phone.pattern v = true /\ Phone.init v = Returned (Field.mk v)) \/
  (re.match_ Phone.pattern v = false /\
   Phone.init v =
     Raised (ValueError (pystr "Phone number must contain exactly 10 digits."))).
Proof.
  unfold Phone.init. destruct (re.match_ Phone.pattern v); simpl; auto.
Qed.

Lemma Phone_init_Returned (v : str) (p : Phone.t) :
  Phone.init v = Returned p ->
  p = Field.mk v /\ re.match_ Phone.pattern v = true.
Proof.
  destruct (Phone_init_cases v) as [[Hm ->] | [Hm ->]]; [|discriminate].
  intros [= <-]. auto.
Qed.

Lemma Phone_init_ten_digits (v : str) :
  ten_digits v = true -> Phone.init v = Returned (Field.mk v).
Proof.
  intros Hv.
  destruct (Phone_init_cases v) as [[_ H] | [Hm _]]; [exact H|].
  assert (re.match_ Phone.pattern v = true) as Hm'.
  { apply match_pattern_iff. eauto. }
  congruence.
Qed.

(** The part of the first testable property that holds: ten ASCII digits are
    accepted and stored as they are, and a string that is neither ten decimal
    digits nor ten decimal digits and a line feed is refused. *)
Lemma Phone_init_ten_ascii_digits (v : str) :
  ten_ascii_digits v = true ->
  exists p, Phone.init v = Returned p /\ Field.value p = v.
Proof.
  intros Hv. exists (Field.mk v). split; [|reflexivity].
  apply Phone_init_ten_digits, ten_ascii_digits_ten_digits, Hv.
Qed.

Lemma Phone_init_Raised_iff (v : str) :
  (exists e, Phone.init v = Raised e) <->
  ~ exists d, ten_digits d = true /\ (v = d \/ v = d ++ [LF]).
Proof.
  rewrite <- match_pattern_iff.
  destruct (Phone_init_cases v) as [[Hm ->] | [Hm ->]]; rewrite Hm.
  - split; [intros [e [=]] | intros H; now destruct H].
  - split; [discriminate | eauto].
Qed.

(** Without [re.ASCII], [\d] is any decimal digit: ten Arabic-Indic digits
    make a phone too. *)
Example Phone_init_arabic_indic_digits :
  Phone.init [1633; 1634; 1635; 1636; 1637; 1638; 1639; 1640; 1641; 1632]%N
  = Returned
      (Field.mk [1633; 1634; 1635; 1636; 1637; 1638; 1639; 1640; 1641; 1632]%N).
Proof. reflexivity. Qed.

(** C1, at the input where the code and the claim part: the eleven
    characters ["1234567890\n"] are not ten digits, their last one is not a
    digit, and [Phone.__init__] returns a phone holding all eleven instead of
    raising, because [$] also matches before a final line feed. *)
Theorem Phone_init_trailing_line_feed :
  length (pystr "1234567890" ++ [LF]) = 11 /\
  forallb uni_isdecimal (pystr "1234567890" ++ [LF]) = false /\
  Phone.init (pystr "1234567890" ++ [LF])
  = Returned (Field.mk (pystr "1234567890" ++ [LF])).
Proof. repeat split. Qed.

(** ** Searching a phone list *)

Lemma index_of_None (v : str) (l : list Phone.t) :
  index_of v l = None <-> forall p, p ∈ l -> Field.value p <> v.
Proof.
  induction l as [|p l IH]; simpl.
  - split; [|reflexivity]. intros _ p Hp. inversion Hp.
  - destruct (decide (Field.value p = v)) as [Heq|Hne].
    + split; [discriminate|]. intros H. destruct (H p); [left|exact Heq].
    + destruct (index_of v l) as [k|]; simpl.
      * split; [discriminate|]. intros H. destruct IH as [_ IH].
        assert (Some k = None); [|discriminate].
        apply IH. intros q Hq. apply H. right. exact Hq.
      * split; [|reflexivity]. intros _ q Hq.
        apply elem_of_cons in Hq as [-> | Hq]; [exact Hne|].
        destruct IH as [IH _]. apply IH; [reflexivity|exact Hq].
Qed.

Lemma index_of_Some (v : str) (l : list Phone.t) (i : nat) :
  index_of v l = Some i <->
  (exists p, l !! i = Some p /\ Field.value p = v) /\
  (forall j q, j < i -> l !! j = Some q -> Field.value q <> v).
Proof.
  revert i. induction l as [|p l IH]; intros i; simpl.
  - split; [discriminate|]. intros [(q & Hq & _) _]. discriminate.
  - destruct (decide (Field.value p = v)) as [Heq|Hne].
    + split.
      * intros [= <-]. split; [exists p; auto|]. intros j q Hj. lia.
      * intros [_ Hfirst]. destruct i as [|i]; [reflexivity|].
        destruct (Hfirst 0 p); [lia|reflexivity|exact Heq].
    + destruct i as [|i].
      * split.
        -- destruct (index_of v l); discriminate.
        -- intros [(q & [= <-] & Hq) _]. contradiction.
      * specialize (IH i). destruct (index_of v l) as [k|]; simpl.
        -- split.
           ++ intros [= ->]. destruct IH as [[Hex Hfirst] _]; [reflexivity|].
              split; [exact Hex|].
              intros [|j] q Hj Hq; simpl in Hq.
              ** injection Hq as <-. exact Hne.
              ** apply (Hfirst j); [lia|exact Hq].
           ++ intros [Hex Hfirst]. f_equal. symmetry.
              assert (Some k = Some i) as [= ->]; [|reflexivity].
              apply IH. split; [exact Hex|].
              intros j q Hj Hq. apply (Hfirst (S j)); [lia|exact Hq].
        -- split; [discriminate|].
           intros [Hex Hfirst].
           assert (@None nat = Some i); [|discriminate].
           apply IH. split; [exact Hex|].
           intros j q Hj Hq. apply (Hfirst (S j)); [lia|exact Hq].
Qed.

Lemma index_of_lt (v : str) (l : list Phone.t) (i : nat) :
  index_of v l = Some i -> i < length l.
Proof.
  intros H. apply index_of_Some in H as [(p & Hp & _) _].
  eapply lookup_lt_Some, Hp.
Qed.

Lemma find_phone_loop_index (v : str) (l : list Phone.t) :
  Record_.find_phone_loop v l =
  match index_of v l with Some i => l !! i | None => None end.
Proof.
  induction l as [|p l IH]; simpl; [reflexivity|].
  destruct (decide (Field.value p = v)); [reflexivity|].
  rewrite IH. destruct (index_of v l); reflexivity.
Qed.

Lemma find_phone_loop_None (v : str) (l : list Phone.t) :
  Record_.find_phone_loop v l = None <->
  forall p, p ∈ l -> Field.value p <> v.
Proof.
  rewrite <- index_of_None, find_phone_loop_index.
  destruct (index_of v l) as [i|] eqn:Hi; [|tauto].
  split; [|discriminate].
  apply index_of_lt, lookup_lt_is_Some in Hi as [p Hp]. congruence.
Qed.

Lemma find_phone_loop_Some (v : str) (l : list Phone.t) (p : Phone.t) :
  Record_.find_phone_loop v l = Some p -> p ∈ l /\ Field.value p = v.
Proof.
  rewrite find_phone_loop_index.
  destruct (index_of v l) as [i|] eqn:Hi; [|discriminate].
  apply index_of_Some in Hi as [(q & Hq & Hv) _].
  intros Hp. assert (q = p) as -> by congruence.
  split; [eapply list_elem_of_lookup_2, Hq | exact Hv].
Qed.

Lemma find_phone_loop_elem (v : str) (l : list Phone.t) (p : Phone.t) :
  p ∈ l -> Field.value p = v ->
  exists q, Record_.find_phone_loop v l = Some q /\ Field.value q = v.
Proof.
  intros Hp Hv.
  destruct (Record_.find_phone_loop v l) as [q|] eqn:Hf.
  - exists q. split; [reflexivity|]. eapply find_phone_loop_Some, Hf.
  - destruct (proj1 (find_phone_loop_None v l) Hf p Hp Hv).
Qed.

(** ** The methods of [Record], as equations *)

Lemma add_phone_eq (phone : str) (self : Record_.t) :
  Record_.add_phone phone self =
  match Phone.init phone with
  | Returned x =>
      (Returned (pystr "Phone " ++ phone ++ pystr " added to "
                   ++ Field.value (Record_.name self) ++ pystr "."),
       Record_.set_phones self (Record_.phones self ++ [x]))
  | Raised e => (Raised e, self)
  end.
Proof.
  unfold Record_.add_phone, bind, call.
  destruct (Phone.init phone); reflexivity.
Qed.

Lemma remove_phone_loop_eq (phone : str) (rest : list Phone.t)
    (self : Record_.t) :
  Record_.remove_phone_loop phone rest self =
  match Record_.find_phone_loop phone rest with
  | None => (Returned (pystr "Phone number not found."), self)
  | Some p =>
      match list_remove p (Record_.phones self) with
      | Some l =>
          (Returned (pystr "Phone " ++ phone ++ pystr " removed from "
                       ++ Field.value (Record_.name self) ++ pystr "."),
           Record_.set_phones self l)
      | None =>
          (Raised (ValueError (pystr "list.remove(x): x not in list")), self)
      end
  end.
Proof.
  induction rest as [|p rest IH]; simpl; [reflexivity|].
  destruct (decide (Field.value p = phone)); [|exact IH].
  unfold bind, Record_.phones_remove, bind, get.
  destruct (list_remove p (Record_.phones self)); reflexivity.
Qed.

Lemma edit_phone_loop_eq (old_phone new_phone : str) (i : nat)
    (rest : list Phone.t) (self : Record_.t) :
  Record_.edit_phone_loop old_phone new_phone i rest self =
  match index_of old_phone rest with
  | None => (Returned (pystr "Old phone number not found."), self)
  | Some k =>
      match Phone.init new_phone with
      | Raised e => (Raised e, self)
      | Returned x =>
          match list_setitem (i + k) x (Record_.phones self) with
          | Some l =>
              (Returned (pystr "Phone " ++ old_phone ++ pystr " updated to "
                           ++ new_phone ++ pystr " for "
                           ++ Field.value (Record_.name self) ++ pystr "."),
               Record_.set_phones self l)
          | None =>
              (Raised (IndexError (pystr "list assignment index out of range")),
               self)
          end
      end
  end.
Proof.
  revert i. induction rest as [|p rest IH]; intros i; simpl; [reflexivity|].
  destruct (decide (Field.value p = old_phone)) as [Heq|Hne].
  - rewrite Nat.add_0_r.
    unfold bind, call, Record_.phones_setitem, bind, get.
    destruct (Phone.init new_phone) as [x|e]; [|reflexivity].
    destruct (list_setitem i x (Record_.phones self)); reflexivity.
  - rewrite IH. destruct (index_of old_phone rest) as [k|]; simpl;
      [|reflexivity].
    rewrite Nat.add_succ_r. reflexivity.
Qed.

Lemma edit_phone_eq (old_phone new_phone : str) (self : Record_.t) :
  Record_.edit_phone old_phone new_phone self =
  match index_of old_phone (Record_.phones self) with
  | None => (Returned (pystr "Old phone number not found."), self)
  | Some k =>
      match Phone.init new_phone with
      | Raised e => (Raised e, self)
      | Returned x =>
          match list_setitem k x (Record_.phones self) with
          | Some l =>
              (Returned (pystr "Phone " ++ old_phone ++ pystr " updated to "
                           ++ new_phone ++ pystr " for "
                           ++ Field.value (Record_.name self) ++ pystr "."),
               Record_.set_phones self l)
          | None =>
              (Raised (IndexError (pystr "list assignment index out of range")),
               self)
          end
      end
  end.
Proof.
  unfold Record_.edit_phone, bind, get. apply edit_phone_loop_eq.
Qed.

Lemma list_setitem_lt {A} (i : nat) (x : A) (l : list A) :
  i < length l -> list_setitem i x l = Some (<[i := x]> l).
Proof.
  intros Hi. unfold list_setitem.
  destruct (decide (i < length l)); [reflexivity|contradiction].
Qed.

Lemma list_remove_Forall {A} `{EqDecision A} (P : A -> Prop) (x : A)
    (l l' : list A) :
  list_remove x l = Some l' -> Forall P l -> Forall P l'.
Proof.
  revert l'. induction l as [|y l IH]; intros l'; simpl; [discriminate|].
  destruct (decide (y = x)).
  - intros [= <-] Hl. eapply Forall_inv_tail, Hl.
  - destruct (list_remove x l) as [r|]; [|discriminate].
    intros [= <-] Hl. inversion Hl; subst. constructor; auto.
Qed.

(** ** Editing a phone *)

(** When [old_phone] is in the list and the constructor refuses [new_phone],
    [edit_phone] raises the constructor's error and the record is as it
    was. *)
Lemma edit_phone_new_refused (r : Record_.t) (old_phone new_phone : str)
    (p : Phone.t) (e : exn) :
  p ∈ Record_.phones r -> Field.value p = old_phone ->
  Phone.init new_phone = Raised e ->
  Record_.edit_phone old_phone new_phone r = (Raised e, r).
Proof.
  intros Hp Hv He. rewrite edit_phone_eq, He.
  destruct (index_of old_phone (Record_.phones r)) eqn:Hi; [reflexivity|].
  destruct (proj1 (index_of_None _ _) Hi p Hp Hv).
Qed.

(** C2, at the input where the code and the claim part: the record holds
    ["1234567890"], the new value ["1112223333\n"] is not ten digits, and
    [edit_phone] returns its confirmation with the list changed to hold the
    eleven characters, where the claim has an error and the list as it
    was. *)
Theorem edit_phone_new_with_line_feed :
  ten_digits (pystr "1112223333" ++ [LF]) = false /\
  Record_.edit_phone (pystr "1234567890") (pystr "1112223333" ++ [LF])
    (Record_.mk (Name.init (pystr "John")) [Field.mk (pystr "1234567890")])
  = (Returned (pystr "Phone 1234567890 updated to 1112223333" ++ [LF]
                 ++ pystr " for John."),
     Record_.mk (Name.init (pystr "John"))
       [Field.mk (pystr "1112223333" ++ [LF])]).
Proof. split; reflexivity. Qed.

(** C3 as the spec has it fails when the new value is the old one: the record
    holds ["1234567890"] once, at position 0, the edit to the same ten digits
    goes through, and [find_phone] on the old value then returns a phone,
    not [None]. *)
Lemma edit_phone_same_number_found :
  Record_.phones
    (Record_.mk (Name.init (pystr "John")) [Field.mk (pystr "1234567890")])
    !! 0 = Some (Field.mk (pystr "1234567890")) /\
  length
    (Record_.phones
       (Record_.mk (Name.init (pystr "John")) [Field.mk (pystr "1234567890")]))
  = 1 /\
  ten_ascii_digits (pystr "1234567890") = true /\
  Record_.edit_phone (pystr "1234567890") (pystr "1234567890")
    (Record_.mk (Name.init (pystr "John")) [Field.mk (pystr "1234567890")])
  = (Returned (pystr "Phone 1234567890 updated to 1234567890 for John."),
     Record_.mk (Name.init (pystr "John")) [Field.mk (pystr "1234567890")]) /\
  Record_.find_phone (pystr "1234567890")
    (Record_.mk (Name.init (pystr "John")) [Field.mk (pystr "1234567890")])
  = Some (Field.mk (pystr "1234567890")).
Proof. repeat split. Qed.

(** C3, amended: when [old_phone] is first found at position [i] and
    [new_phone] is ten digits, [edit_phone] returns its confirmation and
    leaves a record with the same name whose list has [new_phone] at
    position [i], the same length and every other position as before;
    then [find_phone] on [new_phone] returns a phone of that value, and
    [find_phone] on [old_phone] returns [None] when [old_phone] was at no
    other position and [new_phone] differs from it. *)
Theorem edit_phone_replaces_in_place (r : Record_.t)
    (old_phone new_phone : str) (i : nat) (p : Phone.t) :
  Record_.phones r !! i = Some p -> Field.value p = old_phone ->
  (forall j q, j < i -> Record_.phones r !! j = Some q ->
               Field.value q <> old_phone) ->
  ten_digits new_phone = true ->
  exists r',
    Record_.edit_phone old_phone new_phone r =
      (Returned (pystr "Phone " ++ old_phone ++ pystr " updated to "
                   ++ new_phone ++ pystr " for "
                   ++ Field.value (Record_.name r) ++ pystr "."), r') /\
    Record_.name r' = Record_.name r /\
    Record_.phones r' !! i = Some (Field.mk new_phone) /\
    length (Record_.phones r') = length (Record_.phones r) /\
    (forall j, j <> i -> Record_.phones r' !! j = Record_.phones r !! j) /\
    (exists q, Record_.find_phone new_phone r' = Some q /\
               Field.value q = new_phone) /\
    (new_phone <> old_phone ->
     (forall j q, j <> i -> Record_.phones r !! j = Some q ->
                  Field.value q <> old_phone) ->
     Record_.find_phone old_phone r' = None).
Proof.
  intros Hp Hv Hfirst Hnew.
  assert (index_of old_phone (Record_.phones r) = Some i) as Hi.
  { apply index_of_Some. eauto. }
  assert (i < length (Record_.phones r)) as Hlt.
  { eapply lookup_lt_Some, Hp. }
  exists (Record_.set_phones r (<[i := Field.mk new_phone]> (Record_.phones r))).
  rewrite edit_phone_eq, Hi, (Phone_init_ten_digits _ Hnew),
    (list_setitem_lt _ _ _ Hlt).
  unfold Record_.find_phone. simpl.
  split; [reflexivity|]. split; [reflexivity|].
  split; [apply list_lookup_insert_eq, Hlt|].
  split; [apply length_insert|].
  split; [intros j Hj; apply list_lookup_insert_ne; congruence|].
  split.
  - apply (find_phone_loop_elem _ _ (Field.mk new_phone)); [|reflexivity].
    apply list_elem_of_insert, Hlt.
  - intros Hne Hother. apply find_phone_loop_None.
    intros q Hq. apply list_elem_of_lookup in Hq as [j Hq].
    destruct (decide (j = i)) as [-> | Hj].
    + rewrite list_lookup_insert_eq in Hq by exact Hlt.
      injection Hq as <-. exact Hne.
    + rewrite list_lookup_insert_ne in Hq by congruence.
      eapply Hother; eauto.
Qed.

Lemma edit_phone_replaces_in_place_witness :
  exists r',
    Record_.edit_phone (pystr "1234567890") (pystr "1112223333")
      (Record_.mk (Name.init (pystr "John"))
         [Field.mk (pystr "5555555555"); Field.mk (pystr "1234567890")])
    = (Returned (pystr "Phone 1234567890 updated to 1112223333 for John."),
       r') /\
    Record_.phones r' !! 1 = Some (Field.mk (pystr "1112223333")) /\
    Record_.find_phone (pystr "1234567890") r' = None.
Proof.
  destruct (edit_phone_replaces_in_place
              (Record_.mk (Name.init (pystr "John"))
                 [Field.mk (pystr "5555555555"); Field.mk (pystr "1234567890")])
              (pystr "1234567890") (pystr "1112223333") 1
              (Field.mk (pystr "1234567890")))
    as (r' & Hrun & _ & Hat & _ & _ & _ & Hgone).
  - reflexivity.
  - reflexivity.
  - intros j q Hj Hq. assert (j = 0) as -> by lia.
    simpl in Hq. injection Hq as <-. vm_compute. discriminate.
  - reflexivity.
  - exists r'. split; [exact Hrun|]. split; [exact Hat|].
    apply Hgone; [vm_compute; discriminate|].
    intros j q Hj Hq. destruct j as [|[|j]]; simpl in Hq.
    + injection Hq as <-. vm_compute. discriminate.
    + congruence.
    + discriminate.
Defined.

(** C4: when no phone of the record has the value [old_phone], [edit_phone]
    returns the not-found message whatever [new_phone] is, valid or not, and
    the record is as it was. *)
Theorem edit_phone_old_absent (r : Record_.t) (old_phone new_phone : str) :
  (forall p, p ∈ Record_.phones r -> Field.value p <> old_phone) ->
  Record_.edit_phone old_phone new_phone r =
  (Returned (pystr "Old phone number not found."), r).
Proof.
  intros Habsent. rewrite edit_phone_eq.
  apply index_of_None in Habsent. rewrite Habsent. reflexivity.
Qed.

Lemma edit_phone_old_absent_witness :
  Phone.init (pystr "12ab") =
    Raised (ValueError (pystr "Phone number must contain exactly 10 digits.")) /\
  Record_.edit_phone (pystr "0000000000") (pystr "12ab")
    (Record_.mk (Name.init (pystr "John")) [Field.mk (pystr "1234567890")])
  = (Returned (pystr "Old phone number not found."),
     Record_.mk (Name.init (pystr "John")) [Field.mk (pystr "1234567890")]).
Proof.
  split; [reflexivity|].
  apply (edit_phone_old_absent
           (Record_.mk (Name.init (pystr "John"))
              [Field.mk (pystr "1234567890")])
           (pystr "0000000000") (pystr "12ab")).
  intros p Hp. apply list_elem_of_singleton in Hp as ->. discriminate.
Defined.

(** ** Adding a phone *)

(** Whenever [add_phone] returns, the phone is the last of the list and
    [find_phone] finds a phone of its value. *)
Lemma add_phone_Returned (r r' : Record_.t) (phone msg : str) :
  Record_.add_phone phone r = (Returned msg, r') ->
  r' = Record_.set_phones r (Record_.phones r ++ [Field.mk phone]) /\
  exists q, Record_.find_phone phone r' = Some q /\ Field.value q = phone.
Proof.
  rewrite add_phone_eq.
  destruct (Phone.init phone) as [x|e] eqn:Hx; [|discriminate].
  apply Phone_init_Returned in Hx as [-> _].
  intros [= _ <-]. split; [reflexivity|].
  apply (find_phone_loop_elem _ _ (Field.mk phone)); [|reflexivity].
  simpl. apply elem_of_app. right. apply list_elem_of_singleton. reflexivity.
Qed.

(** C7: for a record and a string of ten digits, [add_phone] returns its
    confirmation, and on the record it leaves [find_phone] with the same
    string returns a phone whose value is that string. *)
Theorem add_phone_then_find (r : Record_.t) (phone : str) :
  ten_digits phone = true ->
  exists r',
    Record_.add_phone phone r =
      (Returned (pystr "Phone " ++ phone ++ pystr " added to "
                   ++ Field.value (Record_.name r) ++ pystr "."), r') /\
    exists q, Record_.find_phone phone r' = Some q /\ Field.value q = phone.
Proof.
  intros Hphone.
  assert (Record_.add_phone phone r =
            (Returned (pystr "Phone " ++ phone ++ pystr " added to "
                         ++ Field.value (Record_.name r) ++ pystr "."),
             Record_.set_phones r (Record_.phones r ++ [Field.mk phone])))
    as Hrun.
  { rewrite add_phone_eq, (Phone_init_ten_digits _ Hphone). reflexivity. }
  eexists. split; [exact Hrun|].
  eapply add_phone_Returned, Hrun.
Qed.

Lemma add_phone_then_find_witness :
  ten_digits (pystr "5555555555") = true /\
  exists r',
    Record_.add_phone (pystr "5555555555")
      (Record_.mk (Name.init (pystr "John")) [Field.mk (pystr "1234567890")])
    = (Returned (pystr "Phone 5555555555 added to John."), r') /\
    exists q, Record_.find_phone (pystr "5555555555") r' = Some q /\
              Field.value q = pystr "5555555555".
Proof.
  split; [reflexivity|].
  apply (add_phone_then_find
           (Record_.mk (Name.init (pystr "John"))
              [Field.mk (pystr "1234567890")])
           (pystr "5555555555")).
  reflexivity.
Defined.

(** C10: when the constructor refuses the string, [add_phone] raises the
    constructor's error, the one [ValueError] it has, and the record, its
    phone list with it, is as it was. *)
Theorem add_phone_refused_unchanged (r : Record_.t) (phone : str) (e : exn) :
  Phone.init phone = Raised e ->
  Record_.add_phone phone r = (Raised e, r) /\
  e = ValueError (pystr "Phone number must contain exactly 10 digits.") /\
  Record_.phones (snd (Record_.add_phone phone r)) = Record_.phones r.
Proof.
  intros He. rewrite add_phone_eq, He. simpl.
  split; [reflexivity|]. split; [|reflexivity].
  destruct (Phone_init_cases phone) as [[_ H] | [_ H]]; congruence.
Qed.

Lemma add_phone_refused_unchanged_witness :
  Record_.add_phone (pystr "12345")
    (Record_.mk (Name.init (pystr "John")) [Field.mk (pystr "1234567890")])
  = (Raised (ValueError (pystr "Phone number must contain exactly 10 digits.")),
     Record_.mk (Name.init (pystr "John")) [Field.mk (pystr "1234567890")]).
Proof.
  apply (add_phone_refused_unchanged
           (Record_.mk (Name.init (pystr "John"))
              [Field.mk (pystr "1234567890")])
           (pystr "12345")).
  reflexivity.
Defined.

(** ** The phones of a record are phones the constructor made *)

Lemma Phone_init_constructed (v : str) (p : Phone.t) :
  Phone.init v = Returned p -> constructed p.
Proof.
  intros Hp. destruct (Phone_init_Returned _ _ Hp) as [-> Hm].
  split; [exact Hm|exact Hp].
Qed.

Lemma do_op_constructed (o : Record_.op) (self : Record_.t) :
  Forall constructed (Record_.phones self) ->
  Forall constructed (Record_.phones (snd (Record_.do_op o self))).
Proof.
  intros Hall. destruct o as [phone|phone|old_phone new_phone]; simpl.
  - rewrite add_phone_eq.
    destruct (Phone.init phone) as [x|e] eqn:Hx; simpl; [|exact Hall].
    apply Forall_app. split; [exact Hall|].
    constructor; [|constructor]. eapply Phone_init_constructed, Hx.
  - unfold Record_.remove_phone, bind, get. rewrite remove_phone_loop_eq.
    destruct (Record_.find_phone_loop phone (Record_.phones self)) as [q|];
      [|exact Hall].
    destruct (list_remove q (Record_.phones self)) as [l|] eqn:Hl; simpl;
      [|exact Hall].
    eapply list_remove_Forall; [exact Hl|exact Hall].
  - rewrite edit_phone_eq.
    destruct (index_of old_phone (Record_.phones self)) as [k|];
      [|exact Hall].
    destruct (Phone.init new_phone) as [x|e] eqn:Hx; [|exact Hall].
    unfold list_setitem.
    destruct (decide (k < length (Record_.phones self))); simpl; [|exact Hall].
    apply Forall_insert; [exact Hall|]. eapply Phone_init_constructed, Hx.
Qed.

Lemma do_ops_constructed (os : list Record_.op) (self : Record_.t) :
  Forall constructed (Record_.phones self) ->
  Forall constructed (Record_.phones (Record_.do_ops os self)).
Proof.
  revert self. induction os as [|o os IH]; intros self Hall; simpl.
  - exact Hall.
  - apply IH, do_op_constructed, Hall.
Qed.

(** C9: after any sequence of [add_phone], [remove_phone] and [edit_phone]
    calls on a record made by [Record(name)], every phone of the list has a
    value that the constructor's pattern matches, and is what the
    constructor returns for that value. *)
Theorem phones_match_pattern (name : str) (os : list Record_.op) :
  Forall (fun p => re.match_ Phone.pattern (Field.value p) = true /\
                   Phone.init (Field.value p) = Returned p)
    (Record_.phones (Record_.do_ops os (Record_.init name))).
Proof.
  apply (do_ops_constructed os (Record_.init name)). constructor.
Qed.

(** ** Describing a record *)

Lemma str_join_cons (sep x : str) (xs : list str) :
  str_join sep (x :: xs) = x ++ concat (map (fun y => sep ++ y) xs).
Proof.
  revert x. induction xs as [|y xs IH]; intros x.
  - simpl. symmetry. apply app_nil_r.
  - change (str_join sep (x :: y :: xs)) with (x ++ sep ++ str_join sep (y :: xs)).
    rewrite IH. simpl. rewrite <- app_assoc. reflexivity.
Qed.

(** C8: [str(record)] is ["Contact name: "], the name, [", phones: "] and
    then the phone values in the order of the list, the first as it is and
    each later one after ["; "]; and the record made by [Record("John")],
    [add_phone("1234567890")] and [add_phone("5555555555")] is rendered as
    the spec's scenario says. *)
Theorem Record_to_str_renders :
  (forall name : str,
     Record_.to_str (Record_.mk (Name.init name) []) =
     pystr "Contact name: " ++ name ++ pystr ", phones: ") /\
  (forall (name : str) (p : Phone.t) (ps : list Phone.t),
     Record_.to_str (Record_.mk (Name.init name) (p :: ps)) =
     pystr "Contact name: " ++ name ++ pystr ", phones: " ++ Field.value p
       ++ concat (map (fun q => pystr "; " ++ Field.value q) ps)) /\
  Record_.to_str
    (Record_.do_ops
       [Record_.AddPhone (pystr "1234567890");
        Record_.AddPhone (pystr "5555555555")]
       (Record_.init (pystr "John")))
  = pystr "Contact name: John, phones: 1234567890; 5555555555".
Proof.
  split; [|split].
  - intros name. unfold Record_.to_str.
    cbn [Record_.phones Record_.name Name.init Field.init Field.value map
         str_join].
    rewrite app_nil_r. reflexivity.
  - intros name p ps. unfold Record_.to_str.
    cbn [Record_.phones Record_.name Name.init Field.init Field.value map].
    rewrite str_join_cons, map_map. reflexivity.
  - reflexivity.
Qed.

(** The rest of the spec's scenario: the edit, the description after it and
    the two searches. *)
Example scenario_john :
  let john :=
    Record_.do_ops
      [Record_.AddPhone (pystr "1234567890");
       Record_.AddPhone (pystr "5555555555");
       Record_.EditPhone (pystr "1234567890") (pystr "1112223333")]
      (Record_.init (pystr "John")) in
  Record_.to_str john
  = pystr "Contact name: John, phones: 1112223333; 5555555555" /\
  Record_.find_phone (pystr "5555555555") john
  = Some (Field.mk (pystr "5555555555")) /\
  Record_.find_phone (pystr "0000000000") john = None.
Proof. repeat split. Qed.

(** ** The address book *)

Lemma add_record_eq (record : Record_.t) (book : AddressBook.t) :
  AddressBook.add_record record book =
  (Returned (pystr "Contact " ++ Field.value (Record_.name record)
               ++ pystr " added to the address book."),
   AddressBook.mk
     (<[Field.value (Record_.name record) := record]> (AddressBook.data book))).
Proof. reflexivity. Qed.

Lemma delete_eq (name : str) (book : AddressBook.t) :
  AddressBook.delete name book =
  match AddressBook.find name book with
  | Some _ =>
      (Returned (pystr "Contact " ++ name ++ pystr " has been deleted."),
       AddressBook.mk (base.delete name (AddressBook.data book)))
  | None => (Returned (pystr "Contact not found."), book)
  end.
Proof.
  unfold AddressBook.delete, AddressBook.find, bind, get.
  destruct (decide (is_Some (AddressBook.data book !! name))) as [[r Hr]|Hn].
  - rewrite Hr. reflexivity.
  - destruct (AddressBook.data book !! name) as [r|]; [|reflexivity].
    destruct Hn. eauto.
Qed.

(** C5: when the name of [record] is already a key, [add_record] returns its
    confirmation; the key then maps to [record] itself, every other key to
    what it did, the keys and their number are the same, and the directory
    is the one that adding [record] gives once the old entry is deleted:
    nothing of the old entry is kept. *)
Theorem add_record_overwrites (book : AddressBook.t) (record old : Record_.t) :
  AddressBook.find (Field.value (Record_.name record)) book = Some old ->
  exists book',
    AddressBook.add_record record book =
      (Returned (pystr "Contact " ++ Field.value (Record_.name record)
                   ++ pystr " added to the address book."), book') /\
    AddressBook.find (Field.value (Record_.name record)) book' = Some record /\
    (forall name, name <> Field.value (Record_.name record) ->
                  AddressBook.find name book' = AddressBook.find name book) /\
    dom (AddressBook.data book') = dom (AddressBook.data book) /\
    size (AddressBook.data book') = size (AddressBook.data book) /\
    book' =
      snd (AddressBook.add_record record
             (snd (AddressBook.delete (Field.value (Record_.name record))
                     book))).
Proof.
  intros Hold. eexists. split; [apply add_record_eq|].
  unfold AddressBook.find in *. simpl.
  split; [apply lookup_insert_eq|].
  split; [intros name Hne; apply lookup_insert_ne; congruence|].
  split; [apply dom_insert_lookup_L; eauto|].
  split; [apply map_size_insert_Some; eauto|].
  rewrite delete_eq. unfold AddressBook.find. rewrite Hold. simpl.
  rewrite insert_delete_eq. reflexivity.
Qed.

Lemma add_record_overwrites_witness :
  exists book',
    AddressBook.add_record
      (Record_.mk (Name.init (pystr "John")) [Field.mk (pystr "1112223333")])
      (AddressBook.mk
         {[ pystr "John" :=
              Record_.mk (Name.init (pystr "John"))
                [Field.mk (pystr "1234567890"); Field.mk (pystr "5555555555")] ]})
    = (Returned (pystr "Contact John added to the address book."), book') /\
    AddressBook.find (pystr "John") book'
    = Some (Record_.mk (Name.init (pystr "John"))
              [Field.mk (pystr "1112223333")]).
Proof.
  destruct (add_record_overwrites
              (AddressBook.mk
                 {[ pystr "John" :=
                      Record_.mk (Name.init (pystr "John"))
                        [Field.mk (pystr "1234567890");
                         Field.mk (pystr "5555555555")] ]})
              (Record_.mk (Name.init (pystr "John"))
                 [Field.mk (pystr "1112223333")])
              (Record_.mk (Name.init (pystr "John"))
                 [Field.mk (pystr "1234567890"); Field.mk (pystr "5555555555")]))
    as (book' & Hrun & Hfind & _).
  - apply lookup_singleton_eq.
  - exists book'. split; [exact Hrun|exact Hfind].
Defined.

(** C6: when the name is not a key, [delete] returns the not-found message,
    a value and not an error, and the directory, its size with it, is as it
    was. *)
Theorem delete_absent (book : AddressBook.t) (name : str) :
  AddressBook.find name book = None ->
  AddressBook.delete name book = (Returned (pystr "Contact not found."), book) /\
  size (AddressBook.data (snd (AddressBook.delete name book)))
  = size (AddressBook.data book).
Proof.
  intros Habsent. rewrite delete_eq, Habsent. split; reflexivity.
Qed.

Lemma delete_absent_witness :
  AddressBook.delete (pystr "Jane")
    (AddressBook.mk
       {[ pystr "John" :=
            Record_.mk (Name.init (pystr "John")) [Field.mk (pystr "1234567890")] ]})
  = (Returned (pystr "Contact not found."),
     AddressBook.mk
       {[ pystr "John" :=
            Record_.mk (Name.init (pystr "John")) [Field.mk (pystr "1234567890")] ]}).
Proof.
  apply (delete_absent
           (AddressBook.mk
              {[ pystr "John" :=
                   Record_.mk (Name.init (pystr "John"))
                     [Field.mk (pystr "1234567890")] ]})
           (pystr "Jane")).
  apply lookup_singleton_ne. discriminate.
Defined.

(** * Further properties of the methods *)

(** ** The constructor of [Phone] *)

(** X1: [Phone.__init__] returns a phone, holding the argument as it is,
    exactly for ten decimal digits followed by nothing or by one line feed;
    for every other string it raises its [ValueError]. *)
Theorem Phone_init_accepts_iff (v : str) :
  (Phone.init v = Returned (Field.mk v) <->
   exists d, ten_digits d = true /\ (v = d \/ v = d ++ [LF])) /\
  (Phone.init v = Returned (Field.mk v) \/
   Phone.init v =
     Raised (ValueError (pystr "Phone number must contain exactly 10 digits."))).
Proof.
  rewrite <- match_pattern_iff.
  destruct (Phone_init_cases v) as [[Hm Hv] | [Hm Hv]]; rewrite Hv, Hm.
  - split; [tauto|left; reflexivity].
  - split; [|right; reflexivity]. split; discriminate.
Qed.

(** ** [list.remove] *)

Lemma list_remove_first {A} `{EqDecision A} (x : A) (l : list A) (i : nat) :
  l !! i = Some x ->
  (forall j y, j < i -> l !! j = Some y -> y <> x) ->
  list_remove x l = Some (take i l ++ drop (S i) l).
Proof.
  revert i. induction l as [|y l IH]; intros i Hi Hfirst; [discriminate|].
  simpl. destruct (decide (y = x)) as [Heq|Hne].
  - destruct i as [|i]; [rewrite drop_0; reflexivity|].
    destruct (Hfirst 0 y); [lia|reflexivity|exact Heq].
  - destruct i as [|i]; [simpl in Hi; congruence|].
    rewrite (IH i); [reflexivity|exact Hi|].
    intros j z Hj Hz. apply (Hfirst (S j)); [lia|exact Hz].
Qed.

Lemma list_remove_Permutation {A} `{EqDecision A} (x : A) (l l' : list A) :
  list_remove x l = Some l' -> l ≡ₚ x :: l'.
Proof.
  revert l'. induction l as [|y l IH]; intros l'; simpl; [discriminate|].
  destruct (decide (y = x)) as [-> | Hne].
  - intros [= <-]. reflexivity.
  - destruct (list_remove x l) as [r|]; [|discriminate].
    intros [= <-]. rewrite (IH r eq_refl). apply Permutation_swap.
Qed.

Lemma list_remove_elem {A} `{EqDecision A} (x : A) (l : list A) :
  x ∈ l -> exists l', list_remove x l = Some l'.
Proof.
  induction l as [|y l IH]; intros Hx; [inversion Hx|].
  simpl. destruct (decide (y = x)) as [Heq|Hne]; [eauto|].
  apply elem_of_cons in Hx as [-> | Hx]; [contradiction|].
  destruct (IH Hx) as [l' ->]. eauto.
Qed.

Lemma list_remove_last {A} `{EqDecision A} (x : A) (l : list A) :
  x ∉ l -> list_remove x (l ++ [x]) = Some l.
Proof.
  induction l as [|y l IH]; intros Hx; simpl.
  - destruct (decide (x = x)); [reflexivity|contradiction].
  - apply not_elem_of_cons in Hx as [Hne Hx].
    destruct (decide (y = x)); [congruence|].
    rewrite (IH Hx). reflexivity.
Qed.

(** ** Removing a phone *)

Lemma remove_phone_eq (phone : str) (self : Record_.t) :
  Record_.remove_phone phone self =
  match Record_.find_phone phone self with
  | None => (Returned (pystr "Phone number not found."), self)
  | Some p =>
      match list_remove p (Record_.phones self) with
      | Some l =>
          (Returned (pystr "Phone " ++ phone ++ pystr " removed from "
                       ++ Field.value (Record_.name self) ++ pystr "."),
           Record_.set_phones self l)
      | None =>
          (Raised (ValueError (pystr "list.remove(x): x not in list")), self)
      end
  end.
Proof.
  unfold Record_.remove_phone, Record_.find_phone, bind, get.
  apply remove_phone_loop_eq.
Qed.

(** X2: when no phone of the record has the value [phone], [remove_phone]
    returns the not-found message and the record is as it was. *)
Theorem remove_phone_absent (r : Record_.t) (phone : str) :
  (forall p, p ∈ Record_.phones r -> Field.value p <> phone) ->
  Record_.remove_phone phone r =
  (Returned (pystr "Phone number not found."), r).
Proof.
  intros Habsent. rewrite remove_phone_eq. unfold Record_.find_phone.
  apply find_phone_loop_None in Habsent. rewrite Habsent. reflexivity.
Qed.

Lemma remove_phone_absent_witness :
  Record_.remove_phone (pystr "0000000000")
    (Record_.mk (Name.init (pystr "John")) [Field.mk (pystr "1234567890")])
  = (Returned (pystr "Phone number not found."),
     Record_.mk (Name.init (pystr "John")) [Field.mk (pystr "1234567890")]).
Proof.
  apply (remove_phone_absent
           (Record_.mk (Name.init (pystr "John"))
              [Field.mk (pystr "1234567890")])
           (pystr "0000000000")).
  intros p Hp. apply list_elem_of_singleton in Hp as ->. discriminate.
Defined.

(** X3: when [phone] is first found at position [i], [remove_phone] returns
    its confirmation and drops that one position: the phones before it and
    after it stay, in their order, the list is one shorter and the name is
    kept. *)
Theorem remove_phone_first (r : Record_.t) (phone : str) (i : nat)
    (p : Phone.t) :
  Record_.phones r !! i = Some p -> Field.value p = phone ->
  (forall j q, j < i -> Record_.phones r !! j = Some q ->
               Field.value q <> phone) ->
  Record_.remove_phone phone r =
    (Returned (pystr "Phone " ++ phone ++ pystr " removed from "
                 ++ Field.value (Record_.name r) ++ pystr "."),
     Record_.mk (Record_.name r)
       (take i (Record_.phones r) ++ drop (S i) (Record_.phones r))) /\
  S (length (take i (Record_.phones r) ++ drop (S i) (Record_.phones r)))
  = length (Record_.phones r).
Proof.
  intros Hp Hv Hfirst.
  assert (index_of phone (Record_.phones r) = Some i) as Hi.
  { apply index_of_Some. eauto. }
  assert (list_remove p (Record_.phones r) =
            Some (take i (Record_.phones r) ++ drop (S i) (Record_.phones r)))
    as Hrm.
  { apply list_remove_first; [exact Hp|].
    intros j y Hj Hy ->. apply (Hfirst j p Hj Hy Hv). }
  split.
  - rewrite remove_phone_eq. unfold Record_.find_phone.
    rewrite find_phone_loop_index, Hi, Hp, Hrm. reflexivity.
  - apply list_remove_Permutation, Permutation_length in Hrm.
    simpl in Hrm. lia.
Qed.

Lemma remove_phone_first_witness :
  Record_.remove_phone (pystr "5555555555")
    (Record_.mk (Name.init (pystr "John"))
       [Field.mk (pystr "1234567890"); Field.mk (pystr "5555555555");
        Field.mk (pystr "5555555555")])
  = (Returned (pystr "Phone 5555555555 removed from John."),
     Record_.mk (Name.init (pystr "John"))
       [Field.mk (pystr "1234567890"); Field.mk (pystr "5555555555")]).
Proof.
  apply (remove_phone_first
           (Record_.mk (Name.init (pystr "John"))
              [Field.mk (pystr "1234567890"); Field.mk (pystr "5555555555");
               Field.mk (pystr "5555555555")])
           (pystr "5555555555") 1 (Field.mk (pystr "5555555555"))).
  - reflexivity.
  - reflexivity.
  - intros j q Hj Hq. assert (j = 0) as -> by lia.
    simpl in Hq. injection Hq as <-. vm_compute. discriminate.
Defined.

(** X4: [remove_phone] never raises: the [ValueError] of [list.remove] cannot
    happen, since the phone handed to it was just found in the list.  It
    returns a message, keeps the name, and leaves the list as it was or one
    shorter. *)
Theorem remove_phone_never_raises (r : Record_.t) (phone : str) :
  exists msg r',
    Record_.remove_phone phone r = (Returned msg, r') /\
    Record_.name r' = Record_.name r /\
    (Record_.phones r' = Record_.phones r \/
     S (length (Record_.phones r')) = length (Record_.phones r)).
Proof.
  rewrite remove_phone_eq.
  destruct (Record_.find_phone phone r) as [p|] eqn:Hf.
  - apply find_phone_loop_Some in Hf as [Hp _].
    destruct (list_remove_elem _ _ Hp) as [l Hl]. rewrite Hl.
    eexists _, _. split; [reflexivity|]. split; [reflexivity|]. right.
    apply list_remove_Permutation, Permutation_length in Hl.
    simpl in *. lia.
  - eexists _, _. split; [reflexivity|]. split; [reflexivity|]. left.
    reflexivity.
Qed.

(** ** Editing a phone, in every case *)

(** X5: [edit_phone] has three outcomes and no other.  It returns the
    not-found message, or raises the [ValueError] of the constructor (never
    the [IndexError] of the list assignment), and in both cases the record
    is as it was; or it returns its confirmation, and then the list differs
    from the old one at one position only, the first that held [old_phone],
    which now holds [new_phone].  The list keeps its length in every case. *)
Theorem edit_phone_outcomes (r : Record_.t) (old_phone new_phone : str) :
  (Record_.edit_phone old_phone new_phone r =
     (Returned (pystr "Old phone number not found."), r) \/
   Record_.edit_phone old_phone new_phone r =
     (Raised (ValueError
                (pystr "Phone number must contain exactly 10 digits.")), r) \/
   exists i,
     index_of old_phone (Record_.phones r) = Some i /\
     Record_.edit_phone old_phone new_phone r =
       (Returned (pystr "Phone " ++ old_phone ++ pystr " updated to "
                    ++ new_phone ++ pystr " for "
                    ++ Field.value (Record_.name r) ++ pystr "."),
        Record_.mk (Record_.name r)
          (<[i := Field.mk new_phone]> (Record_.phones r)))) /\
  length (Record_.phones (snd (Record_.edit_phone old_phone new_phone r)))
  = length (Record_.phones r).
Proof.
  rewrite edit_phone_eq.
  destruct (index_of old_phone (Record_.phones r)) as [i|] eqn:Hi.
  - destruct (Phone_init_cases new_phone) as [[_ ->] | [_ ->]].
    + rewrite list_setitem_lt by (eapply index_of_lt, Hi). simpl.
      split; [|apply length_insert]. right. right. exists i. auto.
    + split; [|reflexivity]. right. left. reflexivity.
  - split; [|reflexivity]. left. reflexivity.
Qed.

(** ** The name of a record *)

Lemma do_op_name (o : Record_.op) (r : Record_.t) :
  Record_.name (snd (Record_.do_op o r)) = Record_.name r.
Proof.
  destruct o as [phone|phone|old_phone new_phone]; simpl.
  - rewrite add_phone_eq. destruct (Phone.init phone); reflexivity.
  - rewrite remove_phone_eq.
    destruct (Record_.find_phone phone r) as [p|]; [|reflexivity].
    destruct (list_remove p (Record_.phones r)); reflexivity.
  - rewrite edit_phone_eq.
    destruct (index_of old_phone (Record_.phones r)) as [i|]; [|reflexivity].
    destruct (Phone.init new_phone) as [x|e]; [|reflexivity].
    destruct (list_setitem i x (Record_.phones r)); reflexivity.
Qed.

(** X6: no sequence of [add_phone], [remove_phone] and [edit_phone] calls
    changes the name of the record, whether the calls return or raise. *)
Theorem do_ops_keep_name (os : list Record_.op) (r : Record_.t) :
  Record_.name (Record_.do_ops os r) = Record_.name r.
Proof.
  revert r. induction os as [|o os IH]; intros r; simpl.
  - reflexivity.
  - rewrite IH. apply do_op_name.
Qed.

(** ** Finding a phone *)

(** X7: [find_phone] returns [None] exactly when no phone of the record has
    the value, and a phone it returns is the one at the first position of
    the list that holds the value. *)
Theorem find_phone_first_match (r : Record_.t) (phone : str) :
  (Record_.find_phone phone r = None <->
   forall p, p ∈ Record_.phones r -> Field.value p <> phone) /\
  (forall p, Record_.find_phone phone r = Some p ->
     exists i,
       Record_.phones r !! i = Some p /\ Field.value p = phone /\
       forall j q, j < i -> Record_.phones r !! j = Some q ->
                   Field.value q <> phone).
Proof.
  unfold Record_.find_phone. split; [apply find_phone_loop_None|].
  intros p. rewrite find_phone_loop_index.
  destruct (index_of phone (Record_.phones r)) as [i|] eqn:Hi; [|discriminate].
  apply index_of_Some in Hi as [(q & Hq & Hv) Hfirst].
  intros Hp. assert (q = p) as -> by congruence.
  exists i. auto.
Qed.

(** ** Calls that undo each other *)

Lemma field_eta (p : Field.t) : p = Field.mk (Field.value p).
Proof. destruct p. reflexivity. Qed.

Lemma index_of_elem (v : str) (l : list Phone.t) (p : Phone.t) :
  p ∈ l -> Field.value p = v -> exists i, index_of v l = Some i.
Proof.
  intros Hp Hv. destruct (index_of v l) as [i|] eqn:Hi; [eauto|].
  destruct (proj1 (index_of_None v l) Hi p Hp Hv).
Qed.

(** X8: for ten digits, [add_phone] and then [remove_phone] of the same
    string both return their confirmations, and leave the name and the same
    phones up to their order (the copy removed is the first in the list,
    which need not be the one just added); when the record held no phone of
    that value before, the record is exactly as it was. *)
Theorem add_then_remove_phone (r : Record_.t) (phone : str) :
  ten_digits phone = true ->
  exists r1 r2,
    Record_.add_phone phone r =
      (Returned (pystr "Phone " ++ phone ++ pystr " added to "
                   ++ Field.value (Record_.name r) ++ pystr "."), r1) /\
    Record_.remove_phone phone r1 =
      (Returned (pystr "Phone " ++ phone ++ pystr " removed from "
                   ++ Field.value (Record_.name r) ++ pystr "."), r2) /\
    Record_.name r2 = Record_.name r /\
    Record_.phones r2 ≡ₚ Record_.phones r /\
    ((forall p, p ∈ Record_.phones r -> Field.value p <> phone) -> r2 = r).
Proof.
  intros Hphone. destruct r as [name l].
  rewrite add_phone_eq, (Phone_init_ten_digits _ Hphone). simpl.
  eexists.
  assert (exists q, Record_.find_phone_loop phone (l ++ [Field.mk phone])
                    = Some q /\ Field.value q = phone) as (q & Hq & Hv).
  { apply (find_phone_loop_elem _ _ (Field.mk phone)); [|reflexivity].
    apply elem_of_app. right. apply list_elem_of_singleton. reflexivity. }
  assert (q = Field.mk phone) as -> by (rewrite (field_eta q), Hv; reflexivity).
  assert (Field.mk phone ∈ l ++ [Field.mk phone]) as Hin.
  { apply elem_of_app. right. apply list_elem_of_singleton. reflexivity. }
  destruct (list_remove_elem _ _ Hin) as [l2 Hl2].
  exists (Record_.mk name l2).
  split; [reflexivity|].
  rewrite remove_phone_eq. unfold Record_.find_phone. simpl.
  rewrite Hq, Hl2. unfold Record_.set_phones. simpl.
  split; [reflexivity|]. split; [reflexivity|]. split.
  - apply list_remove_Permutation in Hl2.
    apply (Permutation_cons_inv (a := Field.mk phone)).
    rewrite <- Hl2. symmetry. apply Permutation_cons_append.
  - intros Habsent. f_equal.
    assert (Field.mk phone ∉ l) as Hnot.
    { intros Hp. apply (Habsent _ Hp). reflexivity. }
    rewrite (list_remove_last _ _ Hnot) in Hl2. congruence.
Qed.

Lemma add_then_remove_phone_witness :
  exists r1,
    Record_.add_phone (pystr "5555555555")
      (Record_.mk (Name.init (pystr "John")) [Field.mk (pystr "1234567890")])
    = (Returned (pystr "Phone 5555555555 added to John."), r1) /\
    Record_.remove_phone (pystr "5555555555") r1
    = (Returned (pystr "Phone 5555555555 removed from John."),
       Record_.mk (Name.init (pystr "John")) [Field.mk (pystr "1234567890")]).
Proof.
  destruct (add_then_remove_phone
              (Record_.mk (Name.init (pystr "John"))
                 [Field.mk (pystr "1234567890")])
              (pystr "5555555555"))
    as (r1 & r2 & Hadd & Hrm & _ & _ & Hsame).
  - reflexivity.
  - exists r1. split; [exact Hadd|].
    rewrite Hrm, Hsame; [reflexivity|].
    intros p Hp. apply list_elem_of_singleton in Hp as ->. discriminate.
Defined.

(** X9: when the record holds [old_phone], holds no phone of the value
    [new_phone], and the constructor accepts both strings, editing
    [old_phone] to [new_phone] and then [new_phone] back to [old_phone]
    returns both confirmations and leaves the record exactly as it was. *)
Theorem edit_phone_there_and_back (r : Record_.t) (old_phone new_phone : str)
    (p : Phone.t) :
  p ∈ Record_.phones r -> Field.value p = old_phone ->
  (forall q, q ∈ Record_.phones r -> Field.value q <> new_phone) ->
  Phone.init old_phone = Returned (Field.mk old_phone) ->
  Phone.init new_phone = Returned (Field.mk new_phone) ->
  exists r1,
    Record_.edit_phone old_phone new_phone r =
      (Returned (pystr "Phone " ++ old_phone ++ pystr " updated to "
                   ++ new_phone ++ pystr " for "
                   ++ Field.value (Record_.name r) ++ pystr "."), r1) /\
    Record_.edit_phone new_phone old_phone r1 =
      (Returned (pystr "Phone " ++ new_phone ++ pystr " updated to "
                   ++ old_phone ++ pystr " for "
                   ++ Field.value (Record_.name r) ++ pystr "."), r).
Proof.
  intros Hp Hv Hfresh Hold Hnew. destruct r as [name l].
  cbn [Record_.phones Record_.name] in *.
  destruct (index_of_elem _ _ _ Hp Hv) as [i Hi].
  assert (i < length l) as Hlt by (eapply index_of_lt, Hi).
  apply index_of_Some in Hi as Hat. destruct Hat as [(p' & Hp' & Hv') _].
  exists (Record_.mk name (<[i := Field.mk new_phone]> l)).
  rewrite !edit_phone_eq. cbn [Record_.phones Record_.name].
  rewrite Hi, Hnew, (list_setitem_lt _ _ _ Hlt).
  split; [reflexivity|].
  assert (index_of new_phone (<[i := Field.mk new_phone]> l) = Some i) as ->.
  { apply index_of_Some. split.
    - exists (Field.mk new_phone). split; [|reflexivity].
      apply list_lookup_insert_eq, Hlt.
    - intros j q Hj Hq. rewrite list_lookup_insert_ne in Hq by lia.
      eapply Hfresh, list_elem_of_lookup_2, Hq. }
  rewrite Hold, list_setitem_lt by (rewrite length_insert; exact Hlt).
  unfold Record_.set_phones. cbn [Record_.phones Record_.name].
  rewrite list_insert_insert_eq.
  rewrite (list_insert_id l i (Field.mk old_phone)); [reflexivity|].
  rewrite Hp', (field_eta p'), Hv'. reflexivity.
Qed.

Lemma edit_phone_there_and_back_witness :
  exists r1,
    Record_.edit_phone (pystr "1234567890") (pystr "1112223333")
      (Record_.mk (Name.init (pystr "John"))
         [Field.mk (pystr "5555555555"); Field.mk (pystr "1234567890")])
    = (Returned (pystr "Phone 1234567890 updated to 1112223333 for John."),
       r1) /\
    Record_.edit_phone (pystr "1112223333") (pystr "1234567890") r1
    = (Returned (pystr "Phone 1112223333 updated to 1234567890 for John."),
       Record_.mk (Name.init (pystr "John"))
         [Field.mk (pystr "5555555555"); Field.mk (pystr "1234567890")]).
Proof.
  apply (edit_phone_there_and_back
           (Record_.mk (Name.init (pystr "John"))
              [Field.mk (pystr "5555555555"); Field.mk (pystr "1234567890")])
           (pystr "1234567890") (pystr "1112223333")
           (Field.mk (pystr "1234567890"))).
  - apply list_elem_of_lookup. exists 1. reflexivity.
  - reflexivity.
  - intros q Hq. apply list_elem_of_lookup in Hq as [j Hq].
    destruct j as [|[|j]]; simpl in Hq.
    + injection Hq as <-. vm_compute. discriminate.
    + injection Hq as <-. vm_compute. discriminate.
    + discriminate.
  - reflexivity.
  - reflexivity.
Defined.

(** ** Describing a record after a call *)

Lemma str_join_snoc (sep y : str) (xs : list str) :
  str_join sep (xs ++ [y]) =
  match xs with
  | [] => y
  | _ :: _ => str_join sep xs ++ sep ++ y
  end.
Proof.
  destruct xs as [|x xs]; [reflexivity|].
  rewrite <- app_comm_cons, !str_join_cons, map_app, concat_app. simpl.
  rewrite app_nil_r, <- !app_assoc. reflexivity.
Qed.

(** X10: after an [add_phone] that returns, [str(record)] is what it was
    before with the new number at its end, after ["; "] unless the record
    had no phone. *)
Theorem to_str_after_add_phone (r r' : Record_.t) (phone msg : str) :
  Record_.add_phone phone r = (Returned msg, r') ->
  Record_.to_str r' =
  Record_.to_str r ++
    match Record_.phones r with
    | [] => phone
    | _ :: _ => pystr "; " ++ phone
    end.
Proof.
  intros Hadd. apply add_phone_Returned in Hadd as [-> _].
  unfold Record_.to_str, Record_.set_phones.
  cbn [Record_.phones Record_.name].
  rewrite map_app. cbn [map Field.to_str Field.value].
  rewrite str_join_snoc.
  destruct (Record_.phones r) as [|q l].
  - cbn [map str_join]. rewrite app_nil_r, <- !app_assoc. reflexivity.
  - cbn [map]. rewrite <- !app_assoc. reflexivity.
Qed.

Lemma to_str_after_add_phone_witness :
  Record_.to_str
    (snd (Record_.add_phone (pystr "5555555555")
            (Record_.mk (Name.init (pystr "John"))
               [Field.mk (pystr "1234567890")])))
  = Record_.to_str
      (Record_.mk (Name.init (pystr "John")) [Field.mk (pystr "1234567890")])
      ++ pystr "; " ++ pystr "5555555555".
Proof.
  apply (to_str_after_add_phone
           (Record_.mk (Name.init (pystr "John"))
              [Field.mk (pystr "1234567890")])
           _ (pystr "5555555555")
           (pystr "Phone 5555555555 added to John.")).
  reflexivity.
Defined.

(** ** The address book: new names, deletions *)

Lemma book_eta (book : AddressBook.t) :
  AddressBook.mk (AddressBook.data book) = book.
Proof. destruct book. reflexivity. Qed.

(** X11: when the name of [record] is not a key, [add_record] returns its
    confirmation, the name then maps to [record], every other name to what
    it did, and the directory has one entry more. *)
Theorem add_record_fresh (book : AddressBook.t) (record : Record_.t) :
  AddressBook.find (Field.value (Record_.name record)) book = None ->
  exists book',
    AddressBook.add_record record book =
      (Returned (pystr "Contact " ++ Field.value (Record_.name record)
                   ++ pystr " added to the address book."), book') /\
    AddressBook.find (Field.value (Record_.name record)) book' = Some record /\
    (forall name, name <> Field.value (Record_.name record) ->
                  AddressBook.find name book' = AddressBook.find name book) /\
    size (AddressBook.data book') = S (size (AddressBook.data book)).
Proof.
  intros Hfresh. eexists. split; [apply add_record_eq|].
  unfold AddressBook.find in *. cbn [AddressBook.data].
  split; [apply lookup_insert_eq|].
  split; [intros name Hne; apply lookup_insert_ne; congruence|].
  apply map_size_insert_None, Hfresh.
Qed.

Lemma add_record_fresh_witness :
  exists book',
    AddressBook.add_record
      (Record_.mk (Name.init (pystr "Jane")) [Field.mk (pystr "9876543210")])
      (AddressBook.mk
         {[ pystr "John" :=
              Record_.mk (Name.init (pystr "John"))
                [Field.mk (pystr "1234567890")] ]})
    = (Returned (pystr "Contact Jane added to the address book."), book') /\
    size (AddressBook.data book') = 2.
Proof.
  destruct (add_record_fresh
              (AddressBook.mk
                 {[ pystr "John" :=
                      Record_.mk (Name.init (pystr "John"))
                        [Field.mk (pystr "1234567890")] ]})
              (Record_.mk (Name.init (pystr "Jane"))
                 [Field.mk (pystr "9876543210")]))
    as (book' & Hrun & _ & _ & Hsize).
  - apply lookup_singleton_ne. discriminate.
  - exists book'. split; [exact Hrun|].
    rewrite Hsize. cbn [AddressBook.data]. rewrite map_size_singleton.
    reflexivity.
Defined.

(** X12: when the name is a key, [delete] returns its confirmation, the
    name is then not found, every other name maps to what it did, and the
    directory has one entry less. *)
Theorem delete_present (book : AddressBook.t) (name : str) (r : Record_.t) :
  AddressBook.find name book = Some r ->
  exists book',
    AddressBook.delete name book =
      (Returned (pystr "Contact " ++ name ++ pystr " has been deleted."),
       book') /\
    AddressBook.find name book' = None /\
    (forall other, other <> name ->
                   AddressBook.find other book' = AddressBook.find other book) /\
    S (size (AddressBook.data book')) = size (AddressBook.data book).
Proof.
  intros Hr. eexists. rewrite delete_eq, Hr. split; [reflexivity|].
  unfold AddressBook.find in *. cbn [AddressBook.data].
  split; [apply lookup_delete_eq|].
  split; [intros other Hne; apply lookup_delete_ne; congruence|].
  rewrite map_size_delete_Some by eauto.
  assert (size (AddressBook.data book) <> 0); [|lia].
  intros Hz. apply map_size_empty_iff in Hz. rewrite Hz in Hr.
  rewrite lookup_empty in Hr. discriminate.
Qed.

Lemma delete_present_witness :
  exists book',
    AddressBook.delete (pystr "John")
      (AddressBook.mk
         {[ pystr "John" :=
              Record_.mk (Name.init (pystr "John"))
                [Field.mk (pystr "1234567890")] ]})
    = (Returned (pystr "Contact John has been deleted."), book') /\
    AddressBook.find (pystr "John") book' = None.
Proof.
  destruct (delete_present
              (AddressBook.mk
                 {[ pystr "John" :=
                      Record_.mk (Name.init (pystr "John"))
                        [Field.mk (pystr "1234567890")] ]})
              (pystr "John")
              (Record_.mk (Name.init (pystr "John"))
                 [Field.mk (pystr "1234567890")]))
    as (book' & Hrun & Hgone & _).
  - apply lookup_singleton_eq.
  - exists book'. split; [exact Hrun|exact Hgone].
Defined.

(** X13: adding a record under a name that is not a key and then deleting
    that name gives back the directory as it was. *)
Theorem add_record_then_delete (book : AddressBook.t) (record : Record_.t) :
  AddressBook.find (Field.value (Record_.name record)) book = None ->
  AddressBook.delete (Field.value (Record_.name record))
    (snd (AddressBook.add_record record book))
  = (Returned (pystr "Contact " ++ Field.value (Record_.name record)
                 ++ pystr " has been deleted."), book).
Proof.
  intros Hfresh. rewrite add_record_eq, delete_eq.
  unfold AddressBook.find in *. cbn [snd AddressBook.data].
  rewrite lookup_insert_eq, delete_insert_eq, delete_id by exact Hfresh.
  rewrite book_eta. reflexivity.
Qed.

Lemma add_record_then_delete_witness :
  AddressBook.delete (pystr "Jane")
    (snd (AddressBook.add_record
            (Record_.mk (Name.init (pystr "Jane"))
               [Field.mk (pystr "9876543210")])
            AddressBook.init))
  = (Returned (pystr "Contact Jane has been deleted."), AddressBook.init).
Proof.
  apply (add_record_then_delete AddressBook.init
           (Record_.mk (Name.init (pystr "Jane"))
              [Field.mk (pystr "9876543210")])).
  apply lookup_empty.
Defined.

(** X14: deleting a name a second time always returns the not-found message
    and changes nothing, whatever the first deletion did. *)
Theorem delete_twice (book : AddressBook.t) (name : str) :
  AddressBook.delete name (snd (AddressBook.delete name book))
  = (Returned (pystr "Contact not found."),
     snd (AddressBook.delete name book)).
Proof.
  rewrite (delete_eq name book).
  destruct (AddressBook.find name book) as [r|] eqn:Hr; cbn [snd].
  - rewrite delete_eq. unfold AddressBook.find. cbn [AddressBook.data].
    rewrite lookup_delete_eq. reflexivity.
  - rewrite delete_eq, Hr. reflexivity.
Qed.

(** ** The ordered [dict] *)

Section Dict.
Context {V : Type}.
Implicit Types (d : list (str * V)) (k : str) (v : V).

Lemma dict_get_list_to_map d k :
  (list_to_map d : gmap str V) !! k = dict.get k d.
Proof.
  induction d as [|[k' v'] d IH]; simpl; [apply lookup_empty|].
  destruct (decide (k' = k)) as [-> | Hne].
  - apply lookup_insert_eq.
  - rewrite lookup_insert_ne by exact Hne. exact IH.
Qed.

Lemma dict_get_None d k : dict.get k d = None <-> k ∉ dict.keys d.
Proof.
  induction d as [|[k' v'] d IH]; simpl.
  - split; [intros _ H; inversion H|reflexivity].
  - rewrite not_elem_of_cons.
    destruct (decide (k' = k)) as [-> | Hne].
    + split; [discriminate|]. intros [H _]. contradiction.
    + rewrite IH. split; [auto|tauto].
Qed.

Lemma dict_setitem_list_to_map d k v :
  (list_to_map (dict.setitem k v d) : gmap str V) = <[k := v]> (list_to_map d).
Proof.
  induction d as [|[k' v'] d IH]; simpl; [reflexivity|].
  destruct (decide (k' = k)) as [-> | Hne]; simpl.
  - rewrite insert_insert_eq. reflexivity.
  - rewrite IH. apply insert_insert_ne. exact Hne.
Qed.

Lemma dict_delitem_list_to_map d k :
  NoDup (dict.keys d) ->
  (list_to_map (dict.delitem k d) : gmap str V) = base.delete k (list_to_map d).
Proof.
  induction d as [|[k' v'] d IH]; simpl; intros Hd.
  - symmetry. apply delete_empty.
  - apply NoDup_cons in Hd as [Hk' Hd].
    destruct (decide (k' = k)) as [-> | Hne]; simpl.
    + rewrite delete_insert_eq. symmetry. apply delete_id.
      rewrite dict_get_list_to_map. apply dict_get_None, Hk'.
    + rewrite IH by exact Hd. symmetry. apply delete_insert_ne. congruence.
Qed.

Lemma dict_setitem_absent d k v :
  dict.get k d = None -> dict.setitem k v d = d ++ [(k, v)].
Proof.
  induction d as [|[k' v'] d IH]; simpl; [reflexivity|].
  destruct (decide (k' = k)); [discriminate|].
  intros H. rewrite (IH H). reflexivity.
Qed.

Lemma dict_setitem_present d k v old :
  dict.get k d = Some old ->
  exists i,
    d !! i = Some (k, old) /\
    (forall j k' v', j < i -> d !! j = Some (k', v') -> k' <> k) /\
    dict.setitem k v d = <[i := (k, v)]> d.
Proof.
  induction d as [|[k' v'] d IH]; simpl; [discriminate|].
  destruct (decide (k' = k)) as [-> | Hne].
  - intros [= ->]. exists 0. split; [reflexivity|]. split; [|reflexivity].
    intros j k' v' Hj. lia.
  - intros H. destruct (IH H) as (i & Hi & Hfirst & Hset).
    exists (S i). split; [exact Hi|]. split.
    + intros [|j] k'' v'' Hj Hlook; simpl in Hlook.
      * injection Hlook as <- <-. exact Hne.
      * apply (Hfirst j k'' v''); [lia|exact Hlook].
    + simpl. rewrite Hset. reflexivity.
Qed.

Lemma dict_delitem_present d k old :
  dict.get k d = Some old ->
  exists i,
    d !! i = Some (k, old) /\
    (forall j k' v', j < i -> d !! j = Some (k', v') -> k' <> k) /\
    dict.delitem k d = take i d ++ drop (S i) d.
Proof.
  induction d as [|[k' v'] d IH]; simpl; [discriminate|].
  destruct (decide (k' = k)) as [-> | Hne].
  - intros [= ->]. exists 0. split; [reflexivity|]. split.
    + intros j k' v' Hj. lia.
    + simpl. rewrite drop_0. reflexivity.
  - intros H. destruct (IH H) as (i & Hi & Hfirst & Hdel).
    exists (S i). split; [exact Hi|]. split.
    + intros [|j] k'' v'' Hj Hlook; simpl in Hlook.
      * injection Hlook as <- <-. exact Hne.
      * apply (Hfirst j k'' v''); [lia|exact Hlook].
    + simpl. rewrite Hdel. reflexivity.
Qed.

Lemma dict_keys_lookup d i k v :
  d !! i = Some (k, v) -> dict.keys d !! i = Some k /\ dict.values d !! i = Some v.
Proof.
  revert i. induction d as [|[k' v'] d IH]; intros [|i]; simpl;
    try discriminate.
  - intros [= -> ->]. auto.
  - apply IH.
Qed.

Lemma dict_keys_insert d i k v old :
  d !! i = Some (k, old) ->
  dict.keys (<[i := (k, v)]> d) = dict.keys d /\
  dict.values (<[i := (k, v)]> d) = <[i := v]> (dict.values d).
Proof.
  revert i. induction d as [|[k' v'] d IH]; intros [|i]; simpl;
    try discriminate.
  - intros [= -> ->]. auto.
  - intros H. destruct (IH i H) as [Hk Hv].
    unfold dict.keys, dict.values in *. rewrite Hk, Hv. auto.
Qed.

Lemma dict_setitem_NoDup d k v :
  NoDup (dict.keys d) -> NoDup (dict.keys (dict.setitem k v d)).
Proof.
  intros Hd. destruct (dict.get k d) as [old|] eqn:Hget.
  - destruct (dict_setitem_present d k v old Hget) as (i & Hi & _ & ->).
    destruct (dict_keys_insert d i k v old Hi) as [-> _]. exact Hd.
  - rewrite (dict_setitem_absent d k v Hget).
    unfold dict.keys. rewrite map_app. simpl.
    apply NoDup_app. split; [exact Hd|]. split.
    + intros x Hx Hk. apply list_elem_of_singleton in Hk as ->.
      apply dict_get_None in Hget. contradiction.
    + apply NoDup_singleton.
Qed.

Lemma dict_delitem_keys_elem d k x :
  x ∈ dict.keys (dict.delitem k d) -> x ∈ dict.keys d.
Proof.
  induction d as [|[k' v'] d IH]; simpl; [auto|].
  destruct (decide (k' = k)); simpl.
  - intros H. right. exact H.
  - rewrite !elem_of_cons. intros [-> | H]; [left; reflexivity|].
    right. apply IH, H.
Qed.

Lemma dict_delitem_NoDup d k :
  NoDup (dict.keys d) -> NoDup (dict.keys (dict.delitem k d)).
Proof.
  induction d as [|[k' v'] d IH]; simpl; [auto|].
  intros Hd. apply NoDup_cons in Hd as [Hk' Hd].
  destruct (decide (k' = k)); simpl; [exact Hd|].
  apply NoDup_cons. split; [|apply IH, Hd].
  intros H. apply Hk'. eapply dict_delitem_keys_elem, H.
Qed.

End Dict.

(** ** The address book with its order *)

Lemma ordered_add_record_eq (record : Record_.t) (b : OrderedAddressBook.t) :
  OrderedAddressBook.add_record record b =
  (Returned (pystr "Contact " ++ Field.value (Record_.name record)
               ++ pystr " added to the address book."),
   OrderedAddressBook.mk
     (dict.setitem (Field.value (Record_.name record)) record
        (OrderedAddressBook.data b))).
Proof. reflexivity. Qed.

Lemma ordered_delete_eq (name : str) (b : OrderedAddressBook.t) :
  OrderedAddressBook.delete name b =
  match OrderedAddressBook.find name b with
  | Some _ =>
      (Returned (pystr "Contact " ++ name ++ pystr " has been deleted."),
       OrderedAddressBook.mk (dict.delitem name (OrderedAddressBook.data b)))
  | None => (Returned (pystr "Contact not found."), b)
  end.
Proof.
  unfold OrderedAddressBook.delete, OrderedAddressBook.find, bind, get.
  destruct (decide (is_Some (dict.get name (OrderedAddressBook.data b))))
    as [[r Hr]|Hn].
  - rewrite Hr. reflexivity.
  - destruct (dict.get name (OrderedAddressBook.data b)) as [r|];
      [|reflexivity].
    destruct Hn. eauto.
Qed.

Lemma map_list_insert {A B} (f : A -> B) (l : list A) (i : nat) (x : A) :
  map f (<[i := x]> l) = <[i := f x]> (map f l).
Proof.
  revert i. induction l as [|y l IH]; intros [|i]; simpl; try reflexivity.
  rewrite IH. reflexivity.
Qed.

Lemma ordered_init_wf : OrderedAddressBook.wf OrderedAddressBook.init.
Proof. unfold OrderedAddressBook.wf. simpl. apply NoDup_nil_2. Qed.

(** X15: on a book whose keys are distinct, as those of a [dict] are, the
    three methods of the ordered book do what those of [AddressBook] do on
    the same book with its order forgotten: [find] returns the same record,
    [add_record] and [delete] return the same message and leave the same
    book, whose keys are distinct again. *)
Theorem ordered_book_refines (b : OrderedAddressBook.t) (record : Record_.t)
    (name : str) :
  OrderedAddressBook.wf b ->
  OrderedAddressBook.find name b
  = AddressBook.find name (OrderedAddressBook.unordered b) /\
  (AddressBook.add_record record (OrderedAddressBook.unordered b)
   = (fst (OrderedAddressBook.add_record record b),
      OrderedAddressBook.unordered
        (snd (OrderedAddressBook.add_record record b))) /\
   OrderedAddressBook.wf (snd (OrderedAddressBook.add_record record b))) /\
  (AddressBook.delete name (OrderedAddressBook.unordered b)
   = (fst (OrderedAddressBook.delete name b),
      OrderedAddressBook.unordered (snd (OrderedAddressBook.delete name b))) /\
   OrderedAddressBook.wf (snd (OrderedAddressBook.delete name b))).
Proof.
  intros Hwf. unfold OrderedAddressBook.wf in *.
  assert (AddressBook.find name (OrderedAddressBook.unordered b)
          = OrderedAddressBook.find name b) as Hfind.
  { apply dict_get_list_to_map. }
  split; [symmetry; exact Hfind|]. split.
  - rewrite add_record_eq, ordered_add_record_eq. cbn [fst snd].
    unfold OrderedAddressBook.unordered.
    cbn [AddressBook.data OrderedAddressBook.data].
    rewrite dict_setitem_list_to_map.
    split; [reflexivity|apply dict_setitem_NoDup, Hwf].
  - rewrite delete_eq, ordered_delete_eq, Hfind.
    destruct (OrderedAddressBook.find name b) as [r|]; cbn [fst snd].
    + unfold OrderedAddressBook.unordered.
      cbn [AddressBook.data OrderedAddressBook.data].
      rewrite dict_delitem_list_to_map by exact Hwf.
      split; [reflexivity|apply dict_delitem_NoDup, Hwf].
    + split; [reflexivity|exact Hwf].
Qed.

Lemma ordered_book_refines_witness :
  AddressBook.delete (pystr "John")
    (OrderedAddressBook.unordered
       (OrderedAddressBook.mk
          [(pystr "John", Record_.init (pystr "John"));
           (pystr "Jane", Record_.init (pystr "Jane"))]))
  = (Returned (pystr "Contact John has been deleted."),
     OrderedAddressBook.unordered
       (OrderedAddressBook.mk [(pystr "Jane", Record_.init (pystr "Jane"))])).
Proof.
  destruct (ordered_book_refines
              (OrderedAddressBook.mk
                 [(pystr "John", Record_.init (pystr "John"));
                  (pystr "Jane", Record_.init (pystr "Jane"))])
              (Record_.init (pystr "John")) (pystr "John"))
    as (_ & _ & Hdel & _).
  - unfold OrderedAddressBook.wf. simpl.
    apply NoDup_cons. split; [|apply NoDup_singleton].
    rewrite list_elem_of_singleton. discriminate.
  - exact Hdel.
Defined.

(** X16: after [add_record] of a record whose name is not a key,
    [str(book)] is what it was before with the description of the record as
    a new last line, after a line feed unless the book was empty. *)
Theorem book_to_str_after_add_fresh (b : OrderedAddressBook.t)
    (record : Record_.t) :
  OrderedAddressBook.find (Field.value (Record_.name record)) b = None ->
  OrderedAddressBook.to_str (snd (OrderedAddressBook.add_record record b)) =
  match OrderedAddressBook.data b with
  | [] => Record_.to_str record
  | _ :: _ => OrderedAddressBook.to_str b ++ [LF] ++ Record_.to_str record
  end.
Proof.
  intros Hfresh. rewrite ordered_add_record_eq. cbn [snd].
  unfold OrderedAddressBook.to_str, OrderedAddressBook.find in *.
  cbn [OrderedAddressBook.data].
  rewrite (dict_setitem_absent _ _ _ Hfresh).
  unfold dict.values. rewrite !map_app. cbn [map snd].
  rewrite str_join_snoc.
  destruct (OrderedAddressBook.data b) as [|kv d]; reflexivity.
Qed.

Lemma book_to_str_after_add_fresh_witness :
  OrderedAddressBook.to_str
    (snd (OrderedAddressBook.add_record
            (Record_.mk (Name.init (pystr "Jane"))
               [Field.mk (pystr "9876543210")])
            (OrderedAddressBook.mk
               [(pystr "John",
                 Record_.mk (Name.init (pystr "John"))
                   [Field.mk (pystr "1234567890")])])))
  = pystr "Contact name: John, phones: 1234567890" ++ [LF]
      ++ pystr "Contact name: Jane, phones: 9876543210".
Proof.
  apply (book_to_str_after_add_fresh
           (OrderedAddressBook.mk
              [(pystr "John",
                Record_.mk (Name.init (pystr "John"))
                  [Field.mk (pystr "1234567890")])])
           (Record_.mk (Name.init (pystr "Jane"))
              [Field.mk (pystr "9876543210")])).
  reflexivity.
Defined.

(** X17: [add_record] of a record whose name is already a key keeps the
    order of the book: the keys are the same list, the record takes the
    place of the old one among the values, and [str(book)] has its
    description on the line where that of the old record was. *)
Theorem book_overwrite_keeps_place (b : OrderedAddressBook.t)
    (record old : Record_.t) :
  OrderedAddressBook.find (Field.value (Record_.name record)) b = Some old ->
  exists i,
    dict.keys (OrderedAddressBook.data b) !! i
    = Some (Field.value (Record_.name record)) /\
    dict.values (OrderedAddressBook.data b) !! i = Some old /\
    dict.keys
      (OrderedAddressBook.data (snd (OrderedAddressBook.add_record record b)))
    = dict.keys (OrderedAddressBook.data b) /\
    dict.values
      (OrderedAddressBook.data (snd (OrderedAddressBook.add_record record b)))
    = <[i := record]> (dict.values (OrderedAddressBook.data b)) /\
    OrderedAddressBook.to_str (snd (OrderedAddressBook.add_record record b))
    = str_join [LF]
        (<[i := Record_.to_str record]>
           (map Record_.to_str (dict.values (OrderedAddressBook.data b)))).
Proof.
  intros Hold. unfold OrderedAddressBook.find in Hold.
  destruct (dict_setitem_present _ _ record _ Hold) as (i & Hi & _ & Hset).
  destruct (dict_keys_lookup _ _ _ _ Hi) as [Hk Hv].
  destruct (dict_keys_insert _ _ _ record _ Hi) as [Hkeys Hvalues].
  exists i. rewrite ordered_add_record_eq. cbn [snd].
  unfold OrderedAddressBook.to_str. cbn [OrderedAddressBook.data].
  rewrite Hset, Hkeys, Hvalues, map_list_insert. auto.
Qed.

Lemma book_overwrite_keeps_place_witness :
  exists i,
    dict.keys
      [(pystr "John", Record_.init (pystr "John"));
       (pystr "Jane", Record_.init (pystr "Jane"))] !! i
    = Some (pystr "John") /\
    dict.values
      (OrderedAddressBook.data
         (snd (OrderedAddressBook.add_record
                 (Record_.mk (Name.init (pystr "John"))
                    [Field.mk (pystr "1234567890")])
                 (OrderedAddressBook.mk
                    [(pystr "John", Record_.init (pystr "John"));
                     (pystr "Jane", Record_.init (pystr "Jane"))]))))
    = <[i := Record_.mk (Name.init (pystr "John"))
               [Field.mk (pystr "1234567890")]]>
        [Record_.init (pystr "John"); Record_.init (pystr "Jane")].
Proof.
  destruct (book_overwrite_keeps_place
              (OrderedAddressBook.mk
                 [(pystr "John", Record_.init (pystr "John"));
                  (pystr "Jane", Record_.init (pystr "Jane"))])
              (Record_.mk (Name.init (pystr "John"))
                 [Field.mk (pystr "1234567890")])
              (Record_.init (pystr "John")))
    as (i & Hk & _ & _ & Hv & _).
  - reflexivity.
  - exists i. split; [exact Hk|exact Hv].
Defined.

(** X18: [delete] of a name that is a key returns its confirmation and
    drops the one entry of that name; the entries before and after it keep
    their order, and [str(book)] loses that one line. *)
Theorem book_delete_keeps_order (b : OrderedAddressBook.t) (name : str)
    (r : Record_.t) :
  OrderedAddressBook.find name b = Some r ->
  exists i,
    OrderedAddressBook.data b !! i = Some (name, r) /\
    OrderedAddressBook.delete name b =
      (Returned (pystr "Contact " ++ name ++ pystr " has been deleted."),
       OrderedAddressBook.mk
         (take i (OrderedAddressBook.data b)
            ++ drop (S i) (OrderedAddressBook.data b))) /\
    OrderedAddressBook.to_str (snd (OrderedAddressBook.delete name b))
    = str_join [LF]
        (take i (map Record_.to_str (dict.values (OrderedAddressBook.data b)))
           ++ drop (S i)
                (map Record_.to_str (dict.values (OrderedAddressBook.data b)))).
Proof.
  intros Hr. rewrite ordered_delete_eq, Hr. cbn [snd].
  unfold OrderedAddressBook.find in Hr.
  destruct (dict_delitem_present _ _ _ Hr) as (i & Hi & _ & Hdel).
  exists i. split; [exact Hi|]. rewrite Hdel. split; [reflexivity|].
  unfold OrderedAddressBook.to_str, dict.values.
  cbn [OrderedAddressBook.data].
  rewrite !map_app, <- !firstn_map, <- !skipn_map. reflexivity.
Qed.

Lemma book_delete_keeps_order_witness :
  exists i,
    OrderedAddressBook.delete (pystr "John")
      (OrderedAddressBook.mk
         [(pystr "John", Record_.init (pystr "John"));
          (pystr "Jane", Record_.init (pystr "Jane"))])
    = (Returned (pystr "Contact John has been deleted."),
       OrderedAddressBook.mk
         (take i [(pystr "John", Record_.init (pystr "John"));
                  (pystr "Jane", Record_.init (pystr "Jane"))]
            ++ drop (S i)
                 [(pystr "John", Record_.init (pystr "John"));
                  (pystr "Jane", Record_.init (pystr "Jane"))])).
Proof.
  destruct (book_delete_keeps_order
              (OrderedAddressBook.mk
                 [(pystr "John", Record_.init (pystr "John"));
                  (pystr "Jane", Record_.init (pystr "Jane"))])
              (pystr "John") (Record_.init (pystr "John")))
    as (i & _ & Hdel & _).
  - reflexivity.
  - exists i. exact Hdel.
Defined.

(** ** Duplicates, and the keys of a book *)

(** X19: [add_phone] makes no check for duplicates: for ten digits it
    returns its confirmation whether or not the record holds the number
    already, the phones it held keep their places, and the record holds the
    number once more than before. *)
Theorem add_phone_allows_duplicates (r : Record_.t) (phone : str) :
  ten_digits phone = true ->
  exists r',
    Record_.add_phone phone r =
      (Returned (pystr "Phone " ++ phone ++ pystr " added to "
                   ++ Field.value (Record_.name r) ++ pystr "."), r') /\
    take (length (Record_.phones r)) (Record_.phones r') = Record_.phones r /\
    length (filter (fun q => Field.value q = phone) (Record_.phones r'))
    = S (length (filter (fun q => Field.value q = phone) (Record_.phones r))).
Proof.
  intros Hphone. eexists.
  rewrite add_phone_eq, (Phone_init_ten_digits _ Hphone).
  split; [reflexivity|]. cbn [Record_.set_phones Record_.phones].
  split; [apply take_app_length|].
  rewrite filter_app, length_app, filter_cons_True by reflexivity.
  rewrite filter_nil. simpl. lia.
Qed.

Lemma add_phone_allows_duplicates_witness :
  exists r',
    Record_.add_phone (pystr "1234567890")
      (Record_.mk (Name.init (pystr "John")) [Field.mk (pystr "1234567890")])
    = (Returned (pystr "Phone 1234567890 added to John."), r') /\
    length (filter (fun q => Field.value q = pystr "1234567890")
              (Record_.phones r')) = 2.
Proof.
  destruct (add_phone_allows_duplicates
              (Record_.mk (Name.init (pystr "John"))
                 [Field.mk (pystr "1234567890")])
              (pystr "1234567890"))
    as (r' & Hrun & _ & Hcount).
  - reflexivity.
  - exists r'. split; [exact Hrun|]. rewrite Hcount. reflexivity.
Defined.

Lemma do_book_op_keys (o : book_op) (book : AddressBook.t) :
  (forall k r, AddressBook.find k book = Some r ->
               Field.value (Record_.name r) = k) ->
  forall k r, AddressBook.find k (snd (do_book_op o book)) = Some r ->
              Field.value (Record_.name r) = k.
Proof.
  intros Hbook k r. destruct o as [record|name]; cbn [do_book_op].
  - rewrite add_record_eq. unfold AddressBook.find. cbn [snd AddressBook.data].
    destruct (decide (Field.value (Record_.name record) = k)) as [<- | Hne].
    + rewrite lookup_insert_eq. intros [= <-]. reflexivity.
    + rewrite lookup_insert_ne by exact Hne. apply Hbook.
  - rewrite delete_eq.
    destruct (AddressBook.find name book) as [old|]; cbn [snd];
      [|apply Hbook].
    unfold AddressBook.find. cbn [AddressBook.data].
    destruct (decide (name = k)) as [<- | Hne].
    + rewrite lookup_delete_eq. discriminate.
    + rewrite lookup_delete_ne by exact Hne. apply Hbook.
Qed.

(** X20: in a book made from [AddressBook()] by any sequence of
    [add_record] and [delete] calls, a record that [find] returns for a name
    has that name. *)
Theorem find_returns_record_of_that_name (os : list book_op) (name : str)
    (r : Record_.t) :
  AddressBook.find name (do_book_ops os AddressBook.init) = Some r ->
  Field.value (Record_.name r) = name.
Proof.
  assert (forall book,
             (forall k r', AddressBook.find k book = Some r' ->
                           Field.value (Record_.name r') = k) ->
             forall k r', AddressBook.find k (do_book_ops os book) = Some r' ->
                          Field.value (Record_.name r') = k) as Hall.
  { induction os as [|o os IH]; intros book Hbook; simpl; [exact Hbook|].
    apply IH, do_book_op_keys, Hbook. }
  apply (Hall AddressBook.init).
  intros k r' Hk. unfold AddressBook.find in Hk. simpl in Hk.
  rewrite lookup_empty in Hk. discriminate.
Qed.

Lemma find_returns_record_of_that_name_witness :
  AddressBook.find (pystr "Jane")
    (do_book_ops
       [AddRecord (Record_.init (pystr "John"));
        AddRecord (Record_.mk (Name.init (pystr "Jane"))
                     [Field.mk (pystr "9876543210")]);
        Delete (pystr "John")]
       AddressBook.init)
  = Some (Record_.mk (Name.init (pystr "Jane"))
            [Field.mk (pystr "9876543210")]) /\
  Field.value
    (Record_.name
       (Record_.mk (Name.init (pystr "Jane")) [Field.mk (pystr "9876543210")]))
  = pystr "Jane".
Proof.
  split; [vm_compute; reflexivity|].
  apply (find_returns_record_of_that_name
           [AddRecord (Record_.init (pystr "John"));
            AddRecord (Record_.mk (Name.init (pystr "Jane"))
                         [Field.mk (pystr "9876543210")]);
            Delete (pystr "John")]
           (pystr "Jane")
           (Record_.mk (Name.init (pystr "Jane"))
              [Field.mk (pystr "9876543210")])).
  vm_compute. reflexivity.
Defined.
